(** * EvaluationTools: metrics and repeated-evaluation harnesses

    A shallow embedding of [src/evaluation_tools.py] (class
    [EvaluationTools]: [test], [evaluate_multiple_times],
    [evaluate_k_fold]) and the properties of its metric bookkeeping.

    Modelling conventions.
    - Python floats are idealised as exact rationals ([Q]); [1.0] is
      [1], [0.0] is [0].  Rounding is outside the model; float
      comparisons [==], [!=], [>=], [>] become the decidable
      comparisons of [Q].
      Where rounding decides a property, the arithmetic of lines 58,
      95 and 99-100 is replayed on binary64 in [Doubles].
    - Python's float division raises [ZeroDivisionError] on a zero
      divisor; it is the monadic [pydiv].
    - The classifier object [dipnn] is one mutable object; it lives in
      the threaded [state], together with the external world (clock and
      random source) and the console.
    - [roc_auc_score], [train_test_split], [KFold] and [time.time] are
      external; they are the fields of the [Environment] class. *)

From Stdlib Require Import QArith Qabs ZArith List String Bool Lia Lqa.
From Stdlib Require Import Setoid Morphisms.
From Corelib Require PrimFloat.
Import ListNotations.

Local Open Scope Q_scope.

(** ** Values *)

Definition vector := list Q.
Definition matrix := list (list Q).

(** Exceptions the module can let escape. *)
Inductive exn : Type :=
| ZeroDivisionError
| UnboundLocalError
| ValueError
| IndexError.

Inductive result (A : Type) : Type :=
| Ok (a : A)
| Raise (e : exn).
Arguments Ok {A} a.
Arguments Raise {A} e.

(** One [print] call: a plain text, or an f-string made of a label
    followed by one formatted number. *)
Inductive line : Type :=
| Text (s : string)
| Field (label : string) (v : Q).

(** ** Collaborators *)

(** The model capability set consumed by the harness. *)
Class Classifier (Mdl : Type) : Type := {
  set_to_default : Mdl -> Mdl;
  train : Mdl -> matrix -> vector -> Mdl;
  predict : Mdl -> matrix -> vector * vector;
  get_the_model_representation : Mdl -> Q -> Z -> string
}.

(** The external routines: wall clock, random splitter, seeded k-fold
    index generator, ROC-AUC scorer.  [W] is the part of the world the
    clock and the random source read and advance. *)
Class Environment (W : Type) : Type := {
  time_time : W -> Q * W;
  train_test_split :
    matrix -> vector -> Q -> W -> (matrix * matrix * vector * vector) * W;
  KFold_split : Z -> Z -> matrix -> result (list (list nat * list nat));
  roc_auc_score : vector -> vector -> result Q
}.

(** ** The state and exception monad *)

Section Harness.

Context {Mdl W : Type} {Cls : Classifier Mdl} {Env : Environment W}.

Record state : Type := mkState {
  dipnn : Mdl;
  world : W;
  stdout : list line
}.

Definition M (A : Type) : Type := state -> result A * state.

Definition ret {A} (a : A) : M A := fun s => (Ok a, s).

Definition bind {A B} (m : M A) (f : A -> M B) : M B :=
  fun s => match m s with
           | (Ok a, s') => f a s'
           | (Raise e, s') => (Raise e, s')
           end.

Definition raise {A} (e : exn) : M A := fun s => (Raise e, s).

Definition lift {A} (r : result A) : M A := fun s => (r, s).

Notation "x <- c1 ;; c2" := (bind c1 (fun x => c2))
  (at level 61, c1 at next level, right associativity).
Notation "' pat <- c1 ;; c2" := (bind c1 (fun x => match x with pat => c2 end))
  (at level 61, pat pattern, c1 at next level, right associativity).
Notation "c1 ;; c2" := (bind c1 (fun _ => c2))
  (at level 61, right associativity).

Definition print (l : line) : M unit :=
  fun s => (Ok tt, mkState (dipnn s) (world s) (stdout s ++ [l])).

(** Python float division [a/b]. *)
Definition pydiv (a b : Q) : M Q :=
  if Qeq_bool b 0 then raise ZeroDivisionError else ret (a / b).

(** Reading a local variable that an unexecuted loop body never bound. *)
Definition read_local (v : option Q) : M Q :=
  match v with
  | Some x => ret x
  | None => raise UnboundLocalError
  end.

Definition call_predict (X : matrix) : M (vector * vector) :=
  fun s => (Ok (predict (dipnn s) X), s).

Definition call_set_to_default : M unit :=
  fun s => (Ok tt, mkState (set_to_default (dipnn s)) (world s) (stdout s)).

Definition call_train (X : matrix) (Y : vector) : M unit :=
  fun s => (Ok tt, mkState (train (dipnn s) X Y) (world s) (stdout s)).

Definition call_time : M Q :=
  fun s => let '(t, w) := time_time (world s) in
           (Ok t, mkState (dipnn s) w (stdout s)).

Definition call_train_test_split (X : matrix) (Y : vector) (test_size : Q)
  : M (matrix * matrix * vector * vector) :=
  fun s => let '(r, w) := train_test_split X Y test_size (world s) in
           (Ok r, mkState (dipnn s) w (stdout s)).

Definition call_get_the_model_representation (thr : Q) (prec : Z) : M string :=
  fun s => (Ok (get_the_model_representation (dipnn s) thr prec), s).

(** [for x in xs: body], over the loop's local variables [L]. *)
Fixpoint for_each {A L : Type} (xs : list A) (body : A -> L -> M L) (l : L)
  : M L :=
  match xs with
  | [] => ret l
  | x :: xs' => l' <- body x l ;; for_each xs' body l'
  end.

(** ** [test] *)

(** The five counters of the loop of [test] (lines 24-28). *)
Record counts : Type := mkCounts {
  n_errors : Q;
  N : Q;
  P : Q;
  TN : Q;
  TP : Q
}.

Definition counts0 : counts := mkCounts 0 0 0 0 0.

(** One iteration of the loop at lines 29-39. *)
Definition count_step (c : counts) (yy : Q * Q) : counts :=
  let '(y_p, y) := yy in
  let c1 :=
    if negb (Qeq_bool y_p y)
    then mkCounts (n_errors c + 1) (N c) (P c) (TN c) (TP c)
    else c in
  let c2 :=
    if Qeq_bool y 1
    then
      let c' := mkCounts (n_errors c1) (N c1) (P c1 + 1) (TN c1) (TP c1) in
      if Qeq_bool y_p 1
      then mkCounts (n_errors c') (N c') (P c') (TN c') (TP c' + 1)
      else c'
    else c1 in
  if Qeq_bool y 0
  then
    let c' := mkCounts (n_errors c2) (N c2 + 1) (P c2) (TN c2) (TP c2) in
    if Qeq_bool y_p 0
    then mkCounts (n_errors c') (N c') (P c') (TN c' + 1) (TP c')
    else c'
  else c2.

Definition count_loop (Y_predicted_binary Y_test : vector) : counts :=
  fold_left count_step (combine Y_predicted_binary Y_test) counts0.

(** Lines 22-23: the optional threshold override. *)
Definition apply_threshold (new_threshold : Q)
  (Y_predicted_binary Y_predicted : vector) : vector :=
  if Qle_bool 0 new_threshold
  then map (fun score => if Qle_bool new_threshold score then 1 else 0)
           Y_predicted
  else Y_predicted_binary.

(** Line 50: the labels handed to the AUC routine. *)
Definition auc_labels (Y_test : vector) : vector :=
  map (fun y => if negb (Qle_bool y (1#2)) then 1 else 0) Y_test.

(** Lines 24-58: everything [test] does once the binary predictions
    are fixed. *)
Definition metrics (Y_predicted_binary Y_predicted Y_test : vector)
  : M (Q * Q * Q * Q * Q * Q) :=
  let c := count_loop Y_predicted_binary Y_test in
  TP_rate <- (if Qeq_bool (P c) 0
              then print (Text "No positive examples were found!") ;; ret 1
              else pydiv (TP c) (P c)) ;;
  TN_rate <- (if Qeq_bool (N c) 0
              then print (Text "No negative examples were found!") ;; ret 1
              else pydiv (TN c) (N c)) ;;
  roc_auc_score_value <- lift (roc_auc_score (auc_labels Y_test) Y_predicted) ;;
  precision <- (if negb (Qeq_bool (TP c + N c - TN c) 0)
                then pydiv (TP c) (TP c + N c - TN c)
                else print (Text "No true positive examples were found!") ;;
                     ret 0) ;;
  let recall := TP_rate in
  q <- pydiv (n_errors c)
         (inject_Z (Z.of_nat (List.length Y_predicted_binary))) ;;
  ret (1 - q, TP_rate, TN_rate, precision, recall, roc_auc_score_value).

(** Lines 21-23, then the rest. *)
Definition test (X_test : matrix) (Y_test : vector) (new_threshold : Q)
  : M (Q * Q * Q * Q * Q * Q) :=
  '(Y_predicted_binary0, Y_predicted) <- call_predict X_test ;;
  metrics (apply_threshold new_threshold Y_predicted_binary0 Y_predicted)
    Y_predicted Y_test.

(** ** The repetition drivers *)

(** Python's [sum] and numpy's [np.sum] over a list of floats. *)
Definition py_sum (l : list Q) : Q := fold_left Qplus l 0.
Definition np_sum (l : list Q) : Q := fold_left Qplus l 0.

(** Division of a numpy scalar by a float.  On a zero divisor numpy warns
    and yields nan or inf, which [Q] lacks; both drivers reach it only
    after a Python division by the same divisor went through. *)
Definition np_div (a b : Q) : Q := a / b.

(** [(np.array(l) - avg)**2] *)
Definition squared_deviations (l : list Q) (avg : Q) : list Q :=
  map (fun x => (x - avg) ^ 2) l.

(** [range(n)] *)
Definition range (n : Z) : list Z := map Z.of_nat (seq 0 (Z.to_nat n)).

(** numpy indexing by an index array, [X[index]]. *)
Fixpoint take {A : Type} (X : list A) (index : list nat) : result (list A) :=
  match index with
  | [] => Ok []
  | i :: index' =>
      match nth_error X i with
      | None => Raise IndexError
      | Some r =>
          match take X index' with
          | Ok rs => Ok (r :: rs)
          | Raise e => Raise e
          end
      end
  end.

(** The local variables of the two drivers that outlive an iteration.
    [precision] and [recall] are unbound until the loop body has run;
    [roc_auc_list] exists in [evaluate_k_fold] only. *)
Record locals : Type := mkLocals {
  sum_acc : Q;
  sum_TP_rate : Q;
  sum_TN_rate : Q;
  sum_roc_auc : Q;
  accuracy_list : list Q;
  roc_auc_list : list Q;
  training_time : list Q;
  test_time : list Q;
  precision : option Q;
  recall : option Q
}.

Definition locals0 : locals := mkLocals 0 0 0 0 [] [] [] [] None None.

(** Lines 83-98. *)
Definition multiple_times_body (X : matrix) (Y : vector)
  (test_size new_threshold : Q) (k : Z) (l : locals) : M locals :=
  call_set_to_default ;;
  '(X_train, X_test, Y_train, Y_test) <- call_train_test_split X Y test_size ;;
  start_training <- call_time ;;
  call_train X_train Y_train ;;
  end_training <- call_time ;;
  let training_time' := training_time l ++ [end_training - start_training] in
  start_test <- call_time ;;
  '(acc, TP_rate, TN_rate, prec, rec, roc_auc) <-
     test X_test Y_test new_threshold ;;
  end_test <- call_time ;;
  let test_time' := test_time l ++ [end_test - start_test] in
  let accuracy_list' := accuracy_list l ++ [acc] in
  ret (mkLocals (sum_acc l + acc) (sum_TP_rate l + TP_rate)
         (sum_TN_rate l + TN_rate) (sum_roc_auc l + roc_auc)
         accuracy_list' (roc_auc_list l) training_time' test_time'
         (Some prec) (Some rec)).

Definition evaluate_multiple_times (X : matrix) (Y : vector) (no_runs : Z)
  (test_size coefficients_threshold : Q) (coeff_precision : Z)
  (new_threshold : Q) : M (Q * Q * Q * Q * Q * Q * Q * Q) :=
  l <- for_each (range no_runs)
         (multiple_times_body X Y test_size new_threshold) locals0 ;;
  let n := inject_Z no_runs in
  avg_acc <- pydiv (sum_acc l) n ;;
  let var_acc := np_div (np_sum (squared_deviations (accuracy_list l) avg_acc)) n in
  avg_training_time <- pydiv (py_sum (training_time l)) n ;;
  let var_training_time :=
    np_div (np_sum (squared_deviations (training_time l) avg_training_time)) n in
  avg_test_time <- pydiv (py_sum (test_time l)) n ;;
  let var_test_time :=
    np_div (np_sum (squared_deviations (test_time l) avg_test_time)) n in
  avg_tp_rate <- pydiv (sum_TP_rate l) n ;;
  avg_tn_rate <- pydiv (sum_TN_rate l) n ;;
  print (Text "The model in the last iteration") ;;
  repr <- call_get_the_model_representation coefficients_threshold
            coeff_precision ;;
  print (Text repr) ;;
  print (Field "Average accuracy: " avg_acc) ;;
  print (Field "Variance of accuracy: " var_acc) ;;
  print (Field "Average true positive rate: " avg_tp_rate) ;;
  print (Field "Average true negative rate: " avg_tn_rate) ;;
  prec <- read_local (precision l) ;;
  print (Field "Precision: " prec) ;;
  rec <- read_local (recall l) ;;
  print (Field "Recall: " rec) ;;
  roc_printed <- pydiv (sum_roc_auc l) n ;;
  print (Field "Area Under the Receiver Operating Characteristic Score: "
           roc_printed) ;;
  print (Field "Average training time: " avg_training_time) ;;
  print (Field "Variance of training time: " var_training_time) ;;
  print (Field "Average test time: " avg_test_time) ;;
  print (Field "Variance of test time: " var_test_time) ;;
  roc_returned <- pydiv (sum_roc_auc l) n ;;
  ret (avg_acc, avg_training_time, var_training_time, avg_test_time,
       var_test_time, avg_tp_rate, avg_tn_rate, roc_returned).

(** Lines 149-166. *)
Definition k_fold_body (X : matrix) (Y : vector) (new_threshold : Q)
  (fold : list nat * list nat) (l : locals) : M locals :=
  let '(train_index, test_index) := fold in
  call_set_to_default ;;
  X_train <- lift (take X train_index) ;;
  X_test <- lift (take X test_index) ;;
  Y_train <- lift (take Y train_index) ;;
  Y_test <- lift (take Y test_index) ;;
  start_training <- call_time ;;
  call_train X_train Y_train ;;
  end_training <- call_time ;;
  let training_time' := training_time l ++ [end_training - start_training] in
  start_test <- call_time ;;
  '(acc, TP_rate, TN_rate, prec, rec, roc_auc) <-
     test X_test Y_test new_threshold ;;
  end_test <- call_time ;;
  let test_time' := test_time l ++ [end_test - start_test] in
  let accuracy_list' := accuracy_list l ++ [acc] in
  let roc_auc_list' := roc_auc_list l ++ [roc_auc] in
  ret (mkLocals (sum_acc l + acc) (sum_TP_rate l + TP_rate)
         (sum_TN_rate l + TN_rate) (sum_roc_auc l + roc_auc)
         accuracy_list' roc_auc_list' training_time' test_time'
         (Some prec) (Some rec)).

(** [kf.get_n_splits(X)] at line 147 only returns [n_folds]; its value is
    dropped. *)
Definition evaluate_k_fold (X : matrix) (Y : vector) (n_folds : Z)
  (coefficients_threshold : Q) (coeff_precision : Z) (new_threshold : Q)
  (seed : Z) : M (Q * Q * Q * Q * Q * Q * Q * Q) :=
  folds <- lift (KFold_split n_folds seed X) ;;
  l <- for_each folds (k_fold_body X Y new_threshold) locals0 ;;
  let n := inject_Z n_folds in
  avg_acc <- pydiv (sum_acc l) n ;;
  let var_acc := np_div (np_sum (squared_deviations (accuracy_list l) avg_acc)) n in
  avg_roc <- pydiv (sum_roc_auc l) n ;;
  let var_roc := np_div (np_sum (squared_deviations (roc_auc_list l) avg_roc)) n in
  avg_training_time <- pydiv (py_sum (training_time l)) n ;;
  let var_training_time :=
    np_div (np_sum (squared_deviations (training_time l) avg_training_time)) n in
  avg_test_time <- pydiv (py_sum (test_time l)) n ;;
  let var_test_time :=
    np_div (np_sum (squared_deviations (test_time l) avg_test_time)) n in
  avg_tp_rate <- pydiv (sum_TP_rate l) n ;;
  avg_tn_rate <- pydiv (sum_TN_rate l) n ;;
  print (Text "The model in the last iteration") ;;
  repr <- call_get_the_model_representation coefficients_threshold
            coeff_precision ;;
  print (Text repr) ;;
  print (Field "Average accuracy: " avg_acc) ;;
  print (Field "Variance of accuracy: " var_acc) ;;
  print (Field "Average true positive rate: " avg_tp_rate) ;;
  print (Field "Average true negative rate: " avg_tn_rate) ;;
  prec <- read_local (precision l) ;;
  print (Field "Precision: " prec) ;;
  rec <- read_local (recall l) ;;
  print (Field "Recall: " rec) ;;
  print (Field
    "Average Area Under the Receiver Operating Characteristic Score: "
    avg_roc) ;;
  print (Field
    "Variance of Area Under the Receiver Operating Characteristic Score: "
    var_roc) ;;
  print (Field "Average training time: " avg_training_time) ;;
  print (Field "Variance of training time: " var_training_time) ;;
  print (Field "Average test time: " avg_test_time) ;;
  print (Field "Variance of test time: " var_test_time) ;;
  ret (avg_acc, avg_training_time, var_training_time, avg_test_time,
       var_test_time, avg_tp_rate, avg_tn_rate, avg_roc).

(** ** Per-run records

    What one iteration of a driver yields, and the sequence of those over
    the whole loop.  The drivers keep sums and lists instead; the
    theorems relate the two. *)

Record run : Type := mkRun {
  run_acc : Q;
  run_TP_rate : Q;
  run_TN_rate : Q;
  run_precision : Q;
  run_recall : Q;
  run_roc_auc : Q;
  run_training : Q;
  run_test : Q
}.

(** Reset, random split, timed training, timed test. *)
Definition split_run (X : matrix) (Y : vector) (test_size new_threshold : Q)
  : M run :=
  call_set_to_default ;;
  '(X_train, X_test, Y_train, Y_test) <- call_train_test_split X Y test_size ;;
  t0 <- call_time ;;
  call_train X_train Y_train ;;
  t1 <- call_time ;;
  t2 <- call_time ;;
  '(acc, tp, tn, pr, rc, auc) <- test X_test Y_test new_threshold ;;
  t3 <- call_time ;;
  ret (mkRun acc tp tn pr rc auc (t1 - t0) (t3 - t2)).

(** Reset, fold split, timed training, timed test. *)
Definition fold_run (X : matrix) (Y : vector) (new_threshold : Q)
  (fold : list nat * list nat) : M run :=
  call_set_to_default ;;
  X_train <- lift (take X (fst fold)) ;;
  X_test <- lift (take X (snd fold)) ;;
  Y_train <- lift (take Y (fst fold)) ;;
  Y_test <- lift (take Y (snd fold)) ;;
  t0 <- call_time ;;
  call_train X_train Y_train ;;
  t1 <- call_time ;;
  t2 <- call_time ;;
  '(acc, tp, tn, pr, rc, auc) <- test X_test Y_test new_threshold ;;
  t3 <- call_time ;;
  ret (mkRun acc tp tn pr rc auc (t1 - t0) (t3 - t2)).

(** The records of the runs over [xs], in order. *)
Fixpoint collect {A : Type} (xs : list A) (f : A -> M run) : M (list run) :=
  match xs with
  | [] => ret []
  | x :: xs' => r <- f x ;; rs <- collect xs' f ;; ret (r :: rs)
  end.

(** What the loop body does to the locals with the record of a run. *)
Definition record_run (with_roc_list : bool) (l : locals) (r : run) : locals :=
  mkLocals (sum_acc l + run_acc r) (sum_TP_rate l + run_TP_rate r)
    (sum_TN_rate l + run_TN_rate r) (sum_roc_auc l + run_roc_auc r)
    (accuracy_list l ++ [run_acc r])
    (if with_roc_list then roc_auc_list l ++ [run_roc_auc r]
     else roc_auc_list l)
    (training_time l ++ [run_training r]) (test_time l ++ [run_test r])
    (Some (run_precision r)) (Some (run_recall r)).

(** ** The outcome of [metrics], from the counters *)

Definition TP_rate_of (c : counts) : Q :=
  if Qeq_bool (P c) 0 then 1 else TP c / P c.

Definition TN_rate_of (c : counts) : Q :=
  if Qeq_bool (N c) 0 then 1 else TN c / N c.

Definition precision_of (c : counts) : Q :=
  if negb (Qeq_bool (TP c + N c - TN c) 0)
  then TP c / (TP c + N c - TN c) else 0.

Definition advisories (c : counts) : list line :=
  (if Qeq_bool (P c) 0 then [Text "No positive examples were found!"] else [])
  ++ (if Qeq_bool (N c) 0 then [Text "No negative examples were found!"]
      else [])
  ++ (if negb (Qeq_bool (TP c + N c - TN c) 0) then []
      else [Text "No true positive examples were found!"]).

Definition printing (s : state) (ls : list line) : state :=
  mkState (dipnn s) (world s) (stdout s ++ ls).

End Harness.

(** The six components of the tuple [test] returns. *)
Definition ret_accuracy (r : Q * Q * Q * Q * Q * Q) : Q :=
  let '(a, _, _, _, _, _) := r in a.
Definition ret_TP_rate (r : Q * Q * Q * Q * Q * Q) : Q :=
  let '(_, t, _, _, _, _) := r in t.
Definition ret_TN_rate (r : Q * Q * Q * Q * Q * Q) : Q :=
  let '(_, _, t, _, _, _) := r in t.
Definition ret_precision (r : Q * Q * Q * Q * Q * Q) : Q :=
  let '(_, _, _, p, _, _) := r in p.
Definition ret_recall (r : Q * Q * Q * Q * Q * Q) : Q :=
  let '(_, _, _, _, c, _) := r in c.
Definition ret_auc (r : Q * Q * Q * Q * Q * Q) : Q :=
  let '(_, _, _, _, _, a) := r in a.

(** The eight components of the tuple the drivers return. *)
Definition agg : Type := (Q * Q * Q * Q * Q * Q * Q * Q)%type.

Definition avg_accuracy (r : agg) : Q :=
  let '(a, _, _, _, _, _, _, _) := r in a.
Definition avg_training (r : agg) : Q :=
  let '(_, a, _, _, _, _, _, _) := r in a.
Definition var_training (r : agg) : Q :=
  let '(_, _, a, _, _, _, _, _) := r in a.
Definition avg_test (r : agg) : Q :=
  let '(_, _, _, a, _, _, _, _) := r in a.
Definition var_test (r : agg) : Q :=
  let '(_, _, _, _, a, _, _, _) := r in a.
Definition avg_TP_rate (r : agg) : Q :=
  let '(_, _, _, _, _, a, _, _) := r in a.
Definition avg_TN_rate (r : agg) : Q :=
  let '(_, _, _, _, _, _, a, _) := r in a.
Definition avg_auc (r : agg) : Q :=
  let '(_, _, _, _, _, _, _, a) := r in a.

(** The number printed after [label], at its first occurrence. *)
Fixpoint field (label : string) (ls : list line) : option Q :=
  match ls with
  | [] => None
  | Text _ :: ls' => field label ls'
  | Field l v :: ls' => if String.eqb l label then Some v else field label ls'
  end.

(** The record of the last run, if any. *)
Definition final (rs : list run) : option run := last (map Some rs) None.

(** ** Counts and statistics in the words of the specification *)

Definition qnat (n : nat) : Q := inject_Z (Z.of_nat n).

(** The number of index positions [i] at which [p Yb[i] Y[i]] holds. *)
Definition positions (p : Q -> Q -> bool) (Yb Y : vector) : nat :=
  List.length
    (filter (fun i => p (nth i Yb 0) (nth i Y 0)) (seq 0 (List.length Y))).

Definition mismatch_count (Yb Y : vector) : nat :=
  positions (fun y_p y => negb (Qeq_bool y_p y)) Yb Y.

Definition positive_count (Y : vector) : nat :=
  List.length (filter (fun y => Qeq_bool y 1) Y).

Definition negative_count (Y : vector) : nat :=
  List.length (filter (fun y => Qeq_bool y 0) Y).

Definition true_positive_count (Yb Y : vector) : nat :=
  positions (fun y_p y => Qeq_bool y 1 && Qeq_bool y_p 1) Yb Y.

Definition true_negative_count (Yb Y : vector) : nat :=
  positions (fun y_p y => Qeq_bool y 0 && Qeq_bool y_p 0) Yb Y.

Definition total (xs : list Q) : Q := fold_right Qplus 0 xs.

Definition mean (xs : list Q) : Q := total xs / qnat (List.length xs).

(** Sum of squared deviations from the mean, divided by the count. *)
Definition population_variance (xs : list Q) : Q :=
  total (map (fun x => (x - mean xs) * (x - mean xs)) xs)
  / qnat (List.length xs).

(** ** The outcome of the drivers, from the per-run records *)

(** The mean as the drivers compute it. *)
Definition avg_of (n : Q) (l : list Q) : Q := py_sum l / n.

(** The variance as the drivers compute it, around the average [avg]. *)
Definition var_of (n : Q) (l : list Q) (avg : Q) : Q :=
  np_div (np_sum (squared_deviations l avg)) n.

(** The tuple both drivers return over the records [rs], with divisor [n]. *)
Definition aggregate (n : Q) (rs : list run) : agg :=
  let trs := map run_training rs in
  let tes := map run_test rs in
  (avg_of n (map run_acc rs),
   avg_of n trs, var_of n trs (avg_of n trs),
   avg_of n tes, var_of n tes (avg_of n tes),
   avg_of n (map run_TP_rate rs), avg_of n (map run_TN_rate rs),
   avg_of n (map run_roc_auc rs)).

(** The report [evaluate_multiple_times] prints. *)
Definition report_multiple_times (repr : string) (n : Q) (rs : list run)
  (rl : run) : list line :=
  let accs := map run_acc rs in
  let trs := map run_training rs in
  let tes := map run_test rs in
  [Text "The model in the last iteration"; Text repr;
   Field "Average accuracy: " (avg_of n accs);
   Field "Variance of accuracy: " (var_of n accs (avg_of n accs));
   Field "Average true positive rate: " (avg_of n (map run_TP_rate rs));
   Field "Average true negative rate: " (avg_of n (map run_TN_rate rs));
   Field "Precision: " (run_precision rl);
   Field "Recall: " (run_recall rl);
   Field "Area Under the Receiver Operating Characteristic Score: "
     (avg_of n (map run_roc_auc rs));
   Field "Average training time: " (avg_of n trs);
   Field "Variance of training time: " (var_of n trs (avg_of n trs));
   Field "Average test time: " (avg_of n tes);
   Field "Variance of test time: " (var_of n tes (avg_of n tes))].

(** The report [evaluate_k_fold] prints. *)
Definition report_k_fold (repr : string) (n : Q) (rs : list run) (rl : run)
  : list line :=
  let accs := map run_acc rs in
  let aucs := map run_roc_auc rs in
  let trs := map run_training rs in
  let tes := map run_test rs in
  [Text "The model in the last iteration"; Text repr;
   Field "Average accuracy: " (avg_of n accs);
   Field "Variance of accuracy: " (var_of n accs (avg_of n accs));
   Field "Average true positive rate: " (avg_of n (map run_TP_rate rs));
   Field "Average true negative rate: " (avg_of n (map run_TN_rate rs));
   Field "Precision: " (run_precision rl);
   Field "Recall: " (run_recall rl);
   Field "Average Area Under the Receiver Operating Characteristic Score: "
     (avg_of n aucs);
   Field "Variance of Area Under the Receiver Operating Characteristic Score: "
     (var_of n aucs (avg_of n aucs));
   Field "Average training time: " (avg_of n trs);
   Field "Variance of training time: " (var_of n trs (avg_of n trs));
   Field "Average test time: " (avg_of n tes);
   Field "Variance of test time: " (var_of n tes (avg_of n tes))].



(** [r] is the 8-tuple of averages and variances over the runs [rs]. *)
Definition summarises (r : agg) (rs : list run) : Prop :=
  avg_accuracy r == mean (map run_acc rs)
  /\ avg_training r == mean (map run_training rs)
  /\ var_training r == population_variance (map run_training rs)
  /\ avg_test r == mean (map run_test rs)
  /\ var_test r == population_variance (map run_test rs)
  /\ avg_TP_rate r == mean (map run_TP_rate rs)
  /\ avg_TN_rate r == mean (map run_TN_rate rs)
  /\ avg_auc r == mean (map run_roc_auc rs).

(** The pairs of a zipped list that satisfy [p]. *)
Definition pairs (p : Q -> Q -> bool) (l : list (Q * Q)) : nat :=
  List.length (filter (fun yy => p (fst yy) (snd yy)) l).

(** ** Further vocabulary for the properties *)

(** Every entry is 0 or 1. *)
Definition binary (v : vector) : Prop := Forall (fun y => y == 0 \/ y == 1) v.

(** The advisories [test] prints, from the counts. *)
Definition advisory_lines (P N TP TN : nat) : list line :=
  (if Nat.eqb P 0 then [Text "No positive examples were found!"] else [])
  ++ (if Nat.eqb N 0 then [Text "No negative examples were found!"] else [])
  ++ (if Nat.eqb (TP + (N - TN)) 0
      then [Text "No true positive examples were found!"] else []).

(** What [evaluate_multiple_times] prints before it reads the unbound
    [precision], with divisor [n]. *)
Definition early_report (repr : string) (n : Q) : list line :=
  [Text "The model in the last iteration"; Text repr;
   Field "Average accuracy: " (0 / n);
   Field "Variance of accuracy: " (0 / n);
   Field "Average true positive rate: " (0 / n);
   Field "Average true negative rate: " (0 / n)].

(** One of the three advisories of [test]. *)
Definition advisory (l : line) : Prop :=
  In l [Text "No positive examples were found!";
        Text "No negative examples were found!";
        Text "No true positive examples were found!"].

(** A computation that prints nothing but advisories. *)
Definition quiet {Mdl W A : Type} (m : @M Mdl W A) : Prop :=
  forall s, exists out,
    stdout (snd (m s)) = stdout s ++ out /\ Forall advisory out.

(** Between 0 and 1. *)
Definition fraction (x : Q) : Prop := 0 <= x /\ x <= 1.

(** ** A small classifier and environment, for running the model

    The classifier scores a row by its first feature and decides at
    the parameter it holds ([1/2] after a reset, the mean label after
    training).  The clock ticks once per reading; the splitter rotates
    the rows by the tick and holds out the first three; the fold
    generator deals indices round-robin;
    the AUC stand-in is the fraction of correctly ordered
    (positive, negative) pairs, ties counting one half, and rejects
    single-class labels. *)
Module Toy.

Definition score (row : list Q) : Q := hd 0 row.

#[export] Instance classifier : Classifier Q := {|
  set_to_default := fun _ => 1#2;
  train := fun _ _ Y => Qred (mean Y);
  predict := fun m X =>
    (map (fun row => if Qle_bool m (score row) then 1 else 0) X,
     map score X);
  get_the_model_representation := fun _ _ _ => "score >= cut"%string
|}.

Definition pair_credit (sp sn : Q) : Q :=
  if Qle_bool sp sn then (if Qeq_bool sp sn then 1#2 else 0) else 1.

Definition auc (labels scores : vector) : result Q :=
  let ls := combine labels scores in
  let pos := map snd (filter (fun p => Qeq_bool (fst p) 1) ls) in
  let neg := map snd (filter (fun p => negb (Qeq_bool (fst p) 1)) ls) in
  match pos, neg with
  | [], _ => Raise ValueError
  | _, [] => Raise ValueError
  | _, _ =>
      Ok (Qred (total (map (fun sp => total (map (pair_credit sp) neg)) pos)
                / (qnat (List.length pos) * qnat (List.length neg))))
  end.

Definition folds (n_folds : Z) (X : matrix) : result (list (list nat * list nat)) :=
  if (n_folds <? 2)%Z then Raise ValueError
  else if (Z.of_nat (List.length X) <? n_folds)%Z then Raise ValueError
  else
    let n := Z.to_nat n_folds in
    let idx := seq 0 (List.length X) in
    Ok (map (fun k =>
               (filter (fun i => negb (Nat.eqb (i mod n) k)) idx,
                filter (fun i => Nat.eqb (i mod n) k) idx))
            (seq 0 n)).

Definition rotate {A : Type} (k : nat) (l : list A) : list A :=
  skipn k l ++ firstn k l.

#[export] Instance environment : Environment nat := {|
  time_time := fun w => (qnat (w * w), S w);
  train_test_split := fun X Y _ w =>
    let k := (w mod List.length X)%nat in
    ((skipn 3 (rotate k X), firstn 3 (rotate k X),
      skipn 3 (rotate k Y), firstn 3 (rotate k Y)), S w);
  KFold_split := fun n_folds _ X => folds n_folds X;
  roc_auc_score := auc
|}.

Definition start : state (Mdl := Q) (W := nat) := mkState (1#2) 0%nat [].

(** Six rows, three of each class; the third and fourth sit on the wrong
    side of one half. *)
Definition X6 : matrix := [[9#10]; [2#10]; [6#10]; [4#10]; [8#10]; [1#10]].
Definition Y6 : vector := [1; 0; 0; 1; 1; 0].

(** What the default cut predicts on the six rows. *)
Definition Yb6 : vector := [1; 0; 1; 0; 1; 0].
Definition Ys6 : vector := [9#10; 2#10; 6#10; 4#10; 8#10; 1#10].

(** Three rows on which the default cut predicts no positive. *)
Definition X3 : matrix := [[2#10]; [4#10]; [1#10]].
Definition Y3 : vector := [0; 1; 0].

(** A classifier that predicts nothing, whatever the rows. *)
Definition mute : Classifier unit := {|
  set_to_default := fun m => m;
  train := fun m _ _ => m;
  predict := fun _ _ => ([], []);
  get_the_model_representation := fun _ _ _ => "mute"%string
|}.

(** The same world with an AUC routine that accepts anything. *)
Definition lenient : Environment nat := {|
  time_time := fun w => (qnat (w * w), S w);
  train_test_split := fun X Y _ w => ((X, X, Y, Y), S w);
  KFold_split := fun n_folds _ X => folds n_folds X;
  roc_auc_score := fun _ _ => Ok (1#2)
|}.

Definition silent : state (Mdl := unit) (W := nat) := mkState tt 0%nat [].




End Toy.

(** ** Further inputs for the small classifier *)
Module Scenarios.

Import Toy.

(** A classifier that answers with the labels it holds. *)
Definition echo : Classifier vector := {|
  set_to_default := fun m => m;
  train := fun m _ _ => m;
  predict := fun m X => (m, map score X);
  get_the_model_representation := fun _ _ _ => "echo"%string
|}.

Definition knowing : state (Mdl := vector) (W := nat) := mkState Y6 0%nat [].

(** The model in some other state than the default. *)
Definition stale : state (Mdl := Q) (W := nat) := mkState (9#10) 0%nat [].

(** Three labels only, for the six rows. *)
Definition Y6_short : vector := [1; 0; 0].

(** Labels of one class. *)
Definition Y6_ones : vector := [1; 1; 1; 1; 1; 1].




(** Two rows with labels that are neither 0 nor 1. *)
Definition X_soft : matrix := [[9#10]; [2#10]].
Definition Y_soft : vector := [7#10; 3#10].
Definition Ys_soft : vector := [9#10; 2#10].

(** Three folds of two rows; the first holds rows 0 and 3, both of
    class 1. *)
Definition three_folds : result (list run) * state (Mdl := Q) (W := nat) :=
  match KFold_split 3 30 X6 with
  | Ok fs => collect fs (fold_run X6 Y6 (-1)) start
  | Raise e => (Raise e, start)
  end.

End Scenarios.

(** ** The aggregates on IEEE doubles

    The arithmetic of line 58 and of lines 95, 99 and 100 as Python and
    numpy evaluate it, on binary64 with round to nearest even.  An
    array of fewer than eight entries is summed in order; [x**2] is
    [x*x]; [no_runs] is already [float(no_runs)]. *)
Module Doubles.

Import PrimFloat.
Local Open Scope float_scope.


(** Lines 75 and 95: [sum_acc] after the loop. *)
Definition sum_acc (accuracy_list : list float) : float :=
  fold_left add accuracy_list 0.

Definition np_sum (a : list float) : float := fold_left add a 0.

(** Line 99. *)
Definition avg_acc (accuracy_list : list float) (no_runs : float) : float :=
  sum_acc accuracy_list / no_runs.

(** Line 100. *)
Definition var_acc (accuracy_list : list float) (no_runs : float) : float :=
  let avg_acc := avg_acc accuracy_list no_runs in
  np_sum (map (fun a => (a - avg_acc) * (a - avg_acc)) accuracy_list)
  / no_runs.






End Doubles.

(** * Properties *)

(** ** Counting *)

Lemma qnat_succ (n : nat) : qnat n + 1 = qnat (S n).
Proof.
  unfold qnat, inject_Z, Qplus. simpl Qnum. simpl Qden.
  f_equal. lia.
Qed.

Lemma qnat_nonneg (n : nat) : 0 <= qnat n.
Proof. unfold qnat, inject_Z, Qle. cbn [Qnum Qden]. lia. Qed.

Lemma qnat_le (m n : nat) : (m <= n)%nat -> qnat m <= qnat n.
Proof. intros Hmn. unfold qnat, inject_Z, Qle. cbn [Qnum Qden]. lia. Qed.

Lemma qnat_pos (n : nat) : (0 < n)%nat -> 0 < qnat n.
Proof. intros Hn. unfold qnat, inject_Z, Qlt. cbn [Qnum Qden]. lia. Qed.

Lemma qnat_eq_bool_0 (n : nat) : Qeq_bool (qnat n) 0 = Nat.eqb n 0.
Proof.
  destruct n as [|n]; [reflexivity|].
  apply not_true_is_false. intros Hq. apply Qeq_bool_iff in Hq.
  pose proof (qnat_pos (S n) ltac:(lia)) as Hp. rewrite Hq in Hp.
  exact (Qlt_irrefl 0 Hp).
Qed.

Lemma pairs_cons p yy l :
  pairs p (yy :: l) = ((if p (fst yy) (snd yy) then 1 else 0) + pairs p l)%nat.
Proof. unfold pairs. simpl. destruct (p (fst yy) (snd yy)); reflexivity. Qed.

Lemma pairs_le_length p l : (pairs p l <= List.length l)%nat.
Proof. unfold pairs. apply filter_length_le. Qed.

Lemma pairs_and_le p q l : (pairs (fun a b => p a b && q a b) l <= pairs p l)%nat.
Proof.
  induction l as [|yy l IH]; [apply Nat.le_refl|].
  rewrite !pairs_cons.
  destruct (p (fst yy) (snd yy)), (q (fst yy) (snd yy)); simpl; lia.
Qed.

Lemma positions_pairs p (Yb Y : vector) :
  List.length Yb = List.length Y ->
  positions p Yb Y = pairs p (combine Yb Y).
Proof.
  unfold positions. revert Y.
  induction Yb as [|a Yb IH]; intros [|b Y] Hlen; try discriminate;
    [reflexivity|].
  injection Hlen as Hlen.
  cbn [combine List.length seq]. rewrite pairs_cons, <- (IH Y Hlen).
  cbn [filter nth fst snd].
  rewrite <- seq_shift, filter_map_swap.
  destruct (p a b); cbn [List.length]; rewrite length_map; reflexivity.
Qed.

Lemma label_count_pairs (v : Q) (Yb Y : vector) :
  List.length Yb = List.length Y ->
  List.length (filter (fun y => Qeq_bool y v) Y)
  = pairs (fun _ y => Qeq_bool y v) (combine Yb Y).
Proof.
  revert Y.
  induction Yb as [|a Yb IH]; intros [|b Y] Hlen; try discriminate;
    [reflexivity|].
  injection Hlen as Hlen. cbn [combine]. rewrite pairs_cons, <- (IH Y Hlen).
  cbn [fst snd filter]. destruct (Qeq_bool b v); reflexivity.
Qed.

Section Counting.

(** The loop of [test] counts what its variables are named after. *)
Lemma fold_count_step (l : list (Q * Q)) :
  forall e n p tn tp : nat,
    fold_left count_step l
      (mkCounts (qnat e) (qnat n) (qnat p) (qnat tn) (qnat tp))
    = mkCounts
        (qnat (e + pairs (fun y_p y => negb (Qeq_bool y_p y)) l))
        (qnat (n + pairs (fun _ y => Qeq_bool y 0) l))
        (qnat (p + pairs (fun _ y => Qeq_bool y 1) l))
        (qnat (tn + pairs (fun y_p y => Qeq_bool y 0 && Qeq_bool y_p 0) l))
        (qnat (tp + pairs (fun y_p y => Qeq_bool y 1 && Qeq_bool y_p 1) l)).
Proof.
  induction l as [|[y_p y] l IH]; intros e n p tn tp.
  - unfold pairs. simpl. rewrite !Nat.add_0_r. reflexivity.
  - cbn [fold_left]. rewrite !pairs_cons. cbn [fst snd].
    unfold count_step.
    destruct (Qeq_bool y_p y), (Qeq_bool y 1), (Qeq_bool y_p 1),
      (Qeq_bool y 0), (Qeq_bool y_p 0);
      cbn [negb andb n_errors N P TN TP]; rewrite ?qnat_succ, IH;
      f_equal; f_equal; lia.
Qed.

Lemma count_loop_counts (Yb Y : vector) :
  List.length Yb = List.length Y ->
  count_loop Yb Y
  = mkCounts (qnat (mismatch_count Yb Y)) (qnat (negative_count Y))
      (qnat (positive_count Y)) (qnat (true_negative_count Yb Y))
      (qnat (true_positive_count Yb Y)).
Proof.
  intros Hlen. unfold count_loop, counts0.
  change 0 with (qnat 0). rewrite fold_count_step. cbn [Nat.add].
  unfold mismatch_count, negative_count, positive_count,
    true_negative_count, true_positive_count.
  rewrite !(positions_pairs _ _ _ Hlen),
    (label_count_pairs 0 _ _ Hlen), (label_count_pairs 1 _ _ Hlen).
  reflexivity.
Qed.

End Counting.

(** ** What [metrics] and [test] return *)

Section TestProperties.

Context {Mdl W : Type} {Cls : Classifier Mdl} {Env : Environment W}.

Lemma printing_nil (s : @state Mdl W) : printing s [] = s.
Proof. destruct s. unfold printing. simpl. rewrite app_nil_r. reflexivity. Qed.

Lemma printing_printing (s : @state Mdl W) (l1 l2 : list line) :
  printing (printing s l1) l2 = printing s (l1 ++ l2).
Proof. unfold printing. simpl. rewrite app_assoc. reflexivity. Qed.

Lemma qnat_length_nonzero {A} (l : list A) :
  l <> [] -> Qeq_bool (qnat (List.length l)) 0 = false.
Proof.
  intros Hl. rewrite qnat_eq_bool_0. destruct l; [contradiction|reflexivity].
Qed.

Lemma metrics_returns (Yb Ys Y : vector) (s : @state Mdl W) (auc : Q) :
  Yb <> [] ->
  roc_auc_score (auc_labels Y) Ys = Ok auc ->
  let c := count_loop Yb Y in
  metrics Yb Ys Y s
  = (Ok (1 - n_errors c / qnat (List.length Yb), TP_rate_of c, TN_rate_of c,
         precision_of c, TP_rate_of c, auc),
     printing s (advisories c)).
Proof.
  intros Hne Hauc c.
  unfold metrics, TP_rate_of, TN_rate_of, precision_of, advisories.
  fold c. unfold bind, pydiv, print, lift, ret, raise.
  fold (qnat (List.length Yb)). rewrite (qnat_length_nonzero Yb Hne), Hauc.
  destruct (Qeq_bool (P c) 0) eqn:HP, (Qeq_bool (N c) 0) eqn:HN,
    (Qeq_bool (TP c + N c - TN c) 0) eqn:HD;
    cbn [negb dipnn world stdout]; rewrite ?HP, ?HN, ?HD;
    unfold printing; cbn [app]; rewrite <- ?app_assoc; cbn [app];
    rewrite ?app_nil_r; try reflexivity; destruct s; reflexivity.
Qed.

Lemma metrics_empty (Ys Y : vector) (s : @state Mdl W) :
  fst (metrics [] Ys Y s)
  = match roc_auc_score (auc_labels Y) Ys with
    | Ok _ => Raise ZeroDivisionError
    | Raise e => Raise e
    end.
Proof.
  unfold metrics, count_loop. cbn [combine fold_left counts0 P N TP TN n_errors].
  unfold bind, pydiv, print, lift, ret, raise. cbn.
  destruct (roc_auc_score (auc_labels Y) Ys); reflexivity.
Qed.

Lemma metrics_ok_inv (Yb Ys Y : vector) (s s' : @state Mdl W) r :
  metrics Yb Ys Y s = (Ok r, s') ->
  Yb <> [] /\ exists auc, roc_auc_score (auc_labels Y) Ys = Ok auc.
Proof.
  intros Hm. split.
  - intros ->. pose proof (metrics_empty Ys Y s) as He. rewrite Hm in He.
    cbn [fst] in He. destruct (roc_auc_score (auc_labels Y) Ys); discriminate.
  - destruct (roc_auc_score (auc_labels Y) Ys) as [auc|e] eqn:Hauc;
      [exists auc; reflexivity|].
    exfalso. revert Hm. unfold metrics, bind, lift. rewrite Hauc.
    destruct (if Qeq_bool (P (count_loop Yb Y)) 0 then _ else _) as [[?|?] ?];
      [|discriminate].
    destruct (if Qeq_bool (N (count_loop Yb Y)) 0 then _ else _) as [[?|?] ?];
      discriminate.
Qed.

Lemma metrics_auc_raises (Yb Ys Y : vector) (s : @state Mdl W) e :
  roc_auc_score (auc_labels Y) Ys = Raise e ->
  fst (metrics Yb Ys Y s) = Raise e.
Proof.
  intros Hauc. unfold metrics, bind, pydiv, print, lift, ret, raise.
  rewrite Hauc.
  destruct (Qeq_bool (P _) 0) eqn:HP, (Qeq_bool (N _) 0) eqn:HN;
    rewrite ?HP, ?HN; reflexivity.
Qed.

Lemma test_metrics (s : @state Mdl W) X Y thr Yb0 Ys :
  predict (dipnn s) X = (Yb0, Ys) ->
  test X Y thr s = metrics (apply_threshold thr Yb0 Ys) Ys Y s.
Proof. intros Hp. unfold test, bind, call_predict. rewrite Hp. reflexivity. Qed.

Lemma ratio_bounds (m n : nat) :
  (m <= n)%nat -> (0 < n)%nat ->
  0 <= qnat m / qnat n /\ qnat m / qnat n <= 1.
Proof.
  intros Hmn Hn. pose proof (qnat_pos n Hn) as Hpos. split.
  - apply Qle_shift_div_l; [exact Hpos|]. rewrite Qmult_0_l. apply qnat_nonneg.
  - apply Qle_shift_div_r; [exact Hpos|]. rewrite Qmult_1_l.
    apply qnat_le, Hmn.
Qed.

Lemma positions_le_length p (Yb Y : vector) :
  List.length Yb = List.length Y -> (positions p Yb Y <= List.length Yb)%nat.
Proof.
  intros Hlen. rewrite (positions_pairs p Yb Y Hlen).
  etransitivity; [apply pairs_le_length|].
  rewrite length_combine. apply Nat.le_min_l.
Qed.

Lemma true_positive_le (Yb Y : vector) :
  List.length Yb = List.length Y ->
  (true_positive_count Yb Y <= positive_count Y)%nat.
Proof.
  intros Hlen. unfold true_positive_count, positive_count.
  rewrite (positions_pairs _ Yb Y Hlen), (label_count_pairs 1 Yb Y Hlen).
  apply (pairs_and_le (fun _ y => Qeq_bool y 1) (fun y_p _ => Qeq_bool y_p 1)).
Qed.

Lemma true_negative_le (Yb Y : vector) :
  List.length Yb = List.length Y ->
  (true_negative_count Yb Y <= negative_count Y)%nat.
Proof.
  intros Hlen. unfold true_negative_count, negative_count.
  rewrite (positions_pairs _ Yb Y Hlen), (label_count_pairs 0 Yb Y Hlen).
  apply (pairs_and_le (fun _ y => Qeq_bool y 0) (fun y_p _ => Qeq_bool y_p 0)).
Qed.

(** Whenever [test] returns, its tuple is the one [metrics_returns]
    describes, over the counts in the words of the specification. *)
Lemma test_ok_inv (s s' : @state Mdl W) X Y thr Yb0 Ys r :
  predict (dipnn s) X = (Yb0, Ys) ->
  let Yb := apply_threshold thr Yb0 Ys in
  List.length Yb = List.length Y ->
  test X Y thr s = (Ok r, s') ->
  let c := mkCounts (qnat (mismatch_count Yb Y)) (qnat (negative_count Y))
             (qnat (positive_count Y)) (qnat (true_negative_count Yb Y))
             (qnat (true_positive_count Yb Y)) in
  Yb <> [] /\
  r = (1 - n_errors c / qnat (List.length Yb), TP_rate_of c, TN_rate_of c,
       precision_of c, TP_rate_of c, ret_auc r) /\
  roc_auc_score (auc_labels Y) Ys = Ok (ret_auc r) /\
  s' = printing s (advisories c).
Proof.
  intros Hp Yb Hlen Ht c. rewrite (test_metrics s X Y thr Yb0 Ys Hp) in Ht.
  fold Yb in Ht. destruct (metrics_ok_inv _ _ _ _ _ _ Ht) as [Hne [auc Hauc]].
  rewrite (metrics_returns Yb Ys Y s auc Hne Hauc) in Ht.
  rewrite (count_loop_counts Yb Y Hlen) in Ht. fold c in Ht.
  injection Ht as Hr Hs. subst r s'. cbn [ret_auc]. auto.
Qed.

End TestProperties.

(** ** Claims about [test] *)

Section TestClaims.

Context {Mdl W : Type} {Cls : Classifier Mdl} {Env : Environment W}.

(** C1.  For equal-length prediction and label vectors, whenever [test]
    returns, its first component is one minus the number of index
    positions where the binary prediction differs from the label, divided
    by the vector length, and lies between 0 and 1; and [test] does
    return when the vectors are not empty and the AUC routine returns. *)
Theorem test_accuracy (s : @state Mdl W) X Y thr Yb0 Ys :
  predict (dipnn s) X = (Yb0, Ys) ->
  let Yb := apply_threshold thr Yb0 Ys in
  List.length Yb = List.length Y ->
  (forall r s', test X Y thr s = (Ok r, s') ->
     ret_accuracy r = 1 - qnat (mismatch_count Yb Y) / qnat (List.length Yb)
     /\ 0 <= ret_accuracy r /\ ret_accuracy r <= 1)
  /\ (Yb <> [] ->
      forall auc, roc_auc_score (auc_labels Y) Ys = Ok auc ->
      exists r s', test X Y thr s = (Ok r, s')).
Proof.
  intros Hp Yb Hlen. split.
  - intros r s' Ht.
    destruct (test_ok_inv s s' X Y thr Yb0 Ys r Hp Hlen Ht)
      as (Hne & Hr & _ & _).
    fold Yb in Hne, Hr. rewrite Hr. cbn [ret_accuracy n_errors].
    split; [reflexivity|].
    assert (Hpos : (0 < List.length Yb)%nat)
      by (destruct Yb; [contradiction|simpl; lia]).
    destruct (ratio_bounds (mismatch_count Yb Y) (List.length Yb)
                (positions_le_length _ Yb Y Hlen) Hpos) as [H0 H1].
    split; lra.
  - intros Hne auc Hauc. rewrite (test_metrics s X Y thr Yb0 Ys Hp).
    fold Yb. rewrite (metrics_returns Yb Ys Y s auc Hne Hauc). eauto.
Qed.

(** C2.  With P the number of labels equal to 1 and TP the number of
    positions where label and binary prediction are both 1 (N and TN
    likewise for 0): the returned TP-rate is TP/P when P > 0 and 1 when
    P = 0, the returned TN-rate is TN/N when N > 0 and 1 when N = 0, and
    both rates lie between 0 and 1. *)
Theorem test_rates (s s' : @state Mdl W) X Y thr Yb0 Ys r :
  predict (dipnn s) X = (Yb0, Ys) ->
  let Yb := apply_threshold thr Yb0 Ys in
  List.length Yb = List.length Y ->
  test X Y thr s = (Ok r, s') ->
  let P := positive_count Y in
  let TP := true_positive_count Yb Y in
  let N := negative_count Y in
  let TN := true_negative_count Yb Y in
  ((0 < P)%nat -> ret_TP_rate r = qnat TP / qnat P)
  /\ (P = 0%nat -> ret_TP_rate r = 1)
  /\ ((0 < N)%nat -> ret_TN_rate r = qnat TN / qnat N)
  /\ (N = 0%nat -> ret_TN_rate r = 1)
  /\ (0 <= ret_TP_rate r /\ ret_TP_rate r <= 1)
  /\ (0 <= ret_TN_rate r /\ ret_TN_rate r <= 1).
Proof.
  intros Hp Yb Hlen Ht P0 TP0 N0 TN0.
  destruct (test_ok_inv s s' X Y thr Yb0 Ys r Hp Hlen Ht) as (_ & Hr & _ & _).
  fold Yb in Hr. fold P0 TP0 N0 TN0 in Hr. rewrite Hr.
  cbn [ret_TP_rate ret_TN_rate]. unfold TP_rate_of, TN_rate_of.
  cbn [P TP N TN]. rewrite !qnat_eq_bool_0.
  pose proof (true_positive_le Yb Y Hlen) as HTP. fold P0 TP0 in HTP.
  pose proof (true_negative_le Yb Y Hlen) as HTN. fold N0 TN0 in HTN.
  repeat split.
  - intros HP. destruct P0; [lia|reflexivity].
  - intros ->. reflexivity.
  - intros HN. destruct N0; [lia|reflexivity].
  - intros ->. reflexivity.
  - destruct (Nat.eqb_spec P0 0); [lra|].
    apply (ratio_bounds TP0 P0); lia.
  - destruct (Nat.eqb_spec P0 0); [lra|].
    apply (ratio_bounds TP0 P0); lia.
  - destruct (Nat.eqb_spec N0 0); [lra|].
    apply (ratio_bounds TN0 N0); lia.
  - destruct (Nat.eqb_spec N0 0); [lra|].
    apply (ratio_bounds TN0 N0); lia.
Qed.

(** C3.  The returned precision is TP / (TP + (N - TN)) when that
    denominator is not zero and 0 when it is; the counts satisfy
    0 <= TP and TN <= N, and the denominator is zero only when TP = 0. *)
Theorem test_precision (s s' : @state Mdl W) X Y thr Yb0 Ys r :
  predict (dipnn s) X = (Yb0, Ys) ->
  let Yb := apply_threshold thr Yb0 Ys in
  List.length Yb = List.length Y ->
  test X Y thr s = (Ok r, s') ->
  let TP := qnat (true_positive_count Yb Y) in
  let N := qnat (negative_count Y) in
  let TN := qnat (true_negative_count Yb Y) in
  (~ TP + (N - TN) == 0 -> ret_precision r == TP / (TP + (N - TN)))
  /\ (TP + (N - TN) == 0 -> ret_precision r = 0)
  /\ 0 <= TP /\ TN <= N
  /\ (TP + (N - TN) == 0 -> true_positive_count Yb Y = 0%nat).
Proof.
  intros Hp Yb Hlen Ht TP0 N0 TN0.
  destruct (test_ok_inv s s' X Y thr Yb0 Ys r Hp Hlen Ht) as (_ & Hr & _ & _).
  fold Yb in Hr. rewrite Hr. cbn [ret_precision].
  unfold precision_of. cbn [TP N TN]. fold TP0 N0 TN0.
  assert (Hden : TP0 + N0 - TN0 == TP0 + (N0 - TN0)) by ring.
  assert (HTN : TN0 <= N0) by (apply qnat_le, true_negative_le, Hlen).
  assert (HTP : 0 <= TP0) by apply qnat_nonneg.
  repeat split; try assumption.
  - intros Hnz. destruct (Qeq_bool (TP0 + N0 - TN0) 0) eqn:Hb; cbn [negb].
    + apply Qeq_bool_iff in Hb. rewrite Hden in Hb. contradiction.
    + rewrite Hden. reflexivity.
  - intros Hz. rewrite <- Hden in Hz. apply Qeq_bool_iff in Hz.
    rewrite Hz. reflexivity.
  - intros Hz. assert (Hq : TP0 == 0) by lra.
    unfold TP0 in Hq. apply Qeq_bool_iff in Hq.
    rewrite qnat_eq_bool_0 in Hq. apply Nat.eqb_eq, Hq.
Qed.

(** C4.  With a threshold of at least 0 the binary predictions that all
    counts use are recomputed from the scores alone, entry by entry 1 when
    the score reaches the threshold and 0 otherwise; threshold 0.7 over
    scores 0.9, 0.6, 0.3 gives 1, 0, 0 whatever the model decided; with a
    negative threshold the model's own binary predictions are used. *)
Theorem test_threshold_override (s : @state Mdl W) X Y thr Yb0 Ys :
  predict (dipnn s) X = (Yb0, Ys) ->
  (0 <= thr ->
   exists Yb,
     test X Y thr s = metrics Yb Ys Y s
     /\ Forall2 (fun b score => (thr <= score -> b = 1)
                                /\ (score < thr -> b = 0)) Yb Ys)
  /\ (thr < 0 -> test X Y thr s = metrics Yb0 Ys Y s)
  /\ (forall Yb0', apply_threshold (7#10) Yb0' [9#10; 6#10; 3#10] = [1; 0; 0]).
Proof.
  intros Hp. rewrite (test_metrics s X Y thr Yb0 Ys Hp).
  unfold apply_threshold. split; [|split].
  - intros Hthr. apply Qle_bool_iff in Hthr. rewrite Hthr.
    eexists. split; [reflexivity|].
    clear Hp. induction Ys as [|score Ys IH]; constructor; [|exact IH].
    destruct (Qle_bool thr score) eqn:Hb; split; intros Hc;
      try reflexivity; exfalso.
    + apply Qle_bool_iff in Hb. lra.
    + apply Qle_bool_iff in Hc. congruence.
  - intros Hthr. destruct (Qle_bool 0 thr) eqn:Hb; [|reflexivity].
    apply Qle_bool_iff in Hb. lra.
  - intros Yb0'. reflexivity.
Qed.

(** C5.  Whatever the input, the recall [test] returns is the TP-rate it
    returns. *)
Theorem test_recall_is_TP_rate (s s' : @state Mdl W) X Y thr r :
  test X Y thr s = (Ok r, s') -> ret_recall r = ret_TP_rate r.
Proof.
  intros Ht. destruct (predict (dipnn s) X) as [Yb0 Ys] eqn:Hp.
  rewrite (test_metrics s X Y thr Yb0 Ys Hp) in Ht.
  destruct (metrics_ok_inv _ _ _ _ _ _ Ht) as [Hne [auc Hauc]].
  rewrite (metrics_returns _ Ys Y s auc Hne Hauc) in Ht.
  injection Ht as Hr _. subst r. reflexivity.
Qed.

(** C8.  [test] hands the AUC routine the labels binarised entry by
    entry, 1 where the label exceeds one half and 0 elsewhere, together
    with the raw scores: the AUC it returns is the routine's value on
    them, an exception of the routine on them escapes, and [test]
    returns that value whenever the routine gives one and the
    predictions are not empty.  On labels that are all 0 or 1 the
    binarised labels are the labels themselves, so the AUC is computed
    over the unchanged labels and the raw scores. *)
Theorem test_auc_labels (s s' : @state Mdl W) X Y thr Yb0 Ys r :
  predict (dipnn s) X = (Yb0, Ys) ->
  Forall2 (fun b y => (1#2 < y -> b = 1) /\ (y <= 1#2 -> b = 0))
    (auc_labels Y) Y
  /\ (test X Y thr s = (Ok r, s') ->
      roc_auc_score (auc_labels Y) Ys = Ok (ret_auc r))
  /\ (forall e, roc_auc_score (auc_labels Y) Ys = Raise e ->
      fst (test X Y thr s) = Raise e)
  /\ (forall auc, roc_auc_score (auc_labels Y) Ys = Ok auc ->
      apply_threshold thr Yb0 Ys <> [] ->
      exists r1 s1, test X Y thr s = (Ok r1, s1) /\ ret_auc r1 = auc)
  /\ (Forall (fun y => y == 0 \/ y == 1) Y -> Forall2 Qeq (auc_labels Y) Y)
  /\ (Forall (fun y => y = 0 \/ y = 1) Y ->
      auc_labels Y = Y
      /\ (test X Y thr s = (Ok r, s') -> roc_auc_score Y Ys = Ok (ret_auc r))).
Proof.
  intros Hp.
  assert (Hhands : test X Y thr s = (Ok r, s') ->
                   roc_auc_score (auc_labels Y) Ys = Ok (ret_auc r)).
  { intros Ht. rewrite (test_metrics s X Y thr Yb0 Ys Hp) in Ht.
    destruct (metrics_ok_inv _ _ _ _ _ _ Ht) as [Hne [auc Hauc]].
    rewrite (metrics_returns _ Ys Y s auc Hne Hauc) in Ht.
    injection Ht as Hr _. subst r. cbn [ret_auc]. exact Hauc. }
  split; [|split; [|split; [|split; [|split]]]].
  - clear. unfold auc_labels.
    induction Y as [|y Y IH]; constructor; [|exact IH].
    destruct (Qle_bool y (1#2)) eqn:Hb; cbn [negb]; split; intros Hc;
      try reflexivity; exfalso.
    + apply Qle_bool_iff in Hb. lra.
    + apply Qle_bool_iff in Hc. congruence.
  - exact Hhands.
  - intros e Hauc. rewrite (test_metrics s X Y thr Yb0 Ys Hp).
    apply metrics_auc_raises, Hauc.
  - intros auc Hauc Hne. rewrite (test_metrics s X Y thr Yb0 Ys Hp).
    rewrite (metrics_returns _ Ys Y s auc Hne Hauc).
    eexists _, _. split; reflexivity.
  - clear. unfold auc_labels.
    induction 1 as [|y Y Hy _ IH]; constructor; [|exact IH].
    destruct (Qle_bool y (1#2)) eqn:Hb; cbn [negb].
    + apply Qle_bool_iff in Hb. destruct Hy as [Hy|Hy]; lra.
    + assert (Hn : ~ y <= 1#2)
        by (intros Hc; apply Qle_bool_iff in Hc; congruence).
      destruct Hy as [Hy|Hy]; lra.
  - intros Hall.
    assert (Hid : auc_labels Y = Y).
    { clear Hhands. unfold auc_labels.
      induction Hall as [|y Y Hy _ IH]; [reflexivity|].
      cbn [map]. rewrite IH. destruct Hy as [->| ->]; reflexivity. }
    split; [exact Hid|]. intros Ht. rewrite <- Hid at 1. exact (Hhands Ht).
Qed.

(** C9.  When the binary prediction vector is empty, in particular when
    the model predicts no rows at all, [test] returns nothing: the
    division by the vector length raises [ZeroDivisionError], unless the
    AUC routine raised before it.  There is no fallback: [test] returns
    only on a non-empty prediction vector. *)
Theorem test_empty_prediction (s : @state Mdl W) X Y thr Yb0 Ys :
  predict (dipnn s) X = (Yb0, Ys) ->
  (apply_threshold thr Yb0 Ys = [] ->
   fst (test X Y thr s)
   = match roc_auc_score (auc_labels Y) Ys with
     | Ok _ => Raise ZeroDivisionError
     | Raise e => Raise e
     end)
  /\ (Yb0 = [] -> Ys = [] -> forall r, fst (test X Y thr s) <> Ok r)
  /\ (forall r s', test X Y thr s = (Ok r, s') ->
      apply_threshold thr Yb0 Ys <> []).
Proof.
  intros Hp. rewrite (test_metrics s X Y thr Yb0 Ys Hp). split; [|split].
  - intros ->. apply metrics_empty.
  - intros -> -> r.
    replace (apply_threshold thr [] []) with (@nil Q)
      by (unfold apply_threshold; destruct (Qle_bool 0 thr); reflexivity).
    rewrite metrics_empty. destruct (roc_auc_score (auc_labels Y) []);
      discriminate.
  - intros r s' Ht. exact (proj1 (metrics_ok_inv _ _ _ _ _ _ Ht)).
Qed.

End TestClaims.

(** ** Sums, means and variances *)

Lemma fold_left_Qplus_total (l : list Q) (a : Q) :
  fold_left Qplus l a == a + total l.
Proof.
  revert a. induction l as [|x l IH]; intros a; cbn [fold_left total fold_right].
  - ring.
  - rewrite IH. unfold total. ring.
Qed.

Lemma py_sum_total (l : list Q) : py_sum l == total l.
Proof. unfold py_sum. rewrite fold_left_Qplus_total. ring. Qed.

Lemma total_map_ext (f g : Q -> Q) (l : list Q) :
  (forall x, f x == g x) -> total (map f l) == total (map g l).
Proof.
  intros Hfg. induction l as [|x l IH]; cbn [map total fold_right];
    [reflexivity|].
  fold (total (map f l)). fold (total (map g l)). rewrite IH, Hfg. reflexivity.
Qed.

Lemma avg_of_mean (l : list Q) : avg_of (qnat (List.length l)) l == mean l.
Proof. unfold avg_of, mean. rewrite py_sum_total. reflexivity. Qed.

Lemma var_of_population_variance (l : list Q) (avg : Q) :
  avg == mean l ->
  var_of (qnat (List.length l)) l avg == population_variance l.
Proof.
  intros Havg. unfold var_of, np_div, np_sum, population_variance.
  fold (py_sum (squared_deviations l avg)). rewrite py_sum_total.
  unfold squared_deviations.
  rewrite (total_map_ext (fun x => (x - avg) ^ 2)
             (fun x => (x - mean l) * (x - mean l))); [reflexivity|].
  intros x. rewrite Havg. simpl. ring.
Qed.




(** ** The drivers, run by run *)

Section Drivers.

Context {Mdl W : Type} {Cls : Classifier Mdl} {Env : Environment W}.

Lemma last_cons_default {A} (l : list A) (a d : A) :
  last (a :: l) d = last l a.
Proof.
  revert a d. induction l as [|b l IH]; intros a d; [reflexivity|].
  change (last (a :: b :: l) d) with (last (b :: l) d).
  rewrite !IH. reflexivity.
Qed.

Lemma last_map_Some (g : run -> Q) (rs : list run) (d : option run) :
  last (map (fun r => Some (g r)) rs) (option_map g d)
  = option_map g (last (map Some rs) d).
Proof.
  revert d. induction rs as [|r rs IH]; intros d; [reflexivity|].
  cbn [map]. rewrite !last_cons_default. exact (IH (Some r)).
Qed.

(** The locals after the loop, from the records of its runs. *)
Lemma fold_record_run (b : bool) (rs : list run) (l : locals) :
  fold_left (record_run b) rs l
  = mkLocals
      (fold_left Qplus (map run_acc rs) (sum_acc l))
      (fold_left Qplus (map run_TP_rate rs) (sum_TP_rate l))
      (fold_left Qplus (map run_TN_rate rs) (sum_TN_rate l))
      (fold_left Qplus (map run_roc_auc rs) (sum_roc_auc l))
      (accuracy_list l ++ map run_acc rs)
      (if b then roc_auc_list l ++ map run_roc_auc rs else roc_auc_list l)
      (training_time l ++ map run_training rs)
      (test_time l ++ map run_test rs)
      (last (map (fun r => Some (run_precision r)) rs) (precision l))
      (last (map (fun r => Some (run_recall r)) rs) (recall l)).
Proof.
  revert l. induction rs as [|r rs IH]; intros l.
  - destruct l, b; cbn; rewrite ?app_nil_r; reflexivity.
  - cbn [fold_left map]. rewrite IH, !last_cons_default.
    unfold record_run at 1 2 3 4 5 6 7 8 9 10.
    cbn [sum_acc sum_TP_rate sum_TN_rate sum_roc_auc accuracy_list
           roc_auc_list training_time test_time precision recall].
    destruct b; rewrite <- ?app_assoc; reflexivity.
Qed.

Lemma for_each_collect {A : Type} (body : A -> locals -> M locals)
  (f : A -> M run) (b : bool) :
  (forall x l (s : @state Mdl W),
     body x l s = match f x s with
                  | (Ok r, s1) => (Ok (record_run b l r), s1)
                  | (Raise e, s1) => (Raise e, s1)
                  end) ->
  forall xs l s,
    for_each xs body l s
    = match collect xs f s with
      | (Ok rs, s1) => (Ok (fold_left (record_run b) rs l), s1)
      | (Raise e, s1) => (Raise e, s1)
      end.
Proof.
  intros Hbody. induction xs as [|x xs IH]; intros l s; [reflexivity|].
  cbn [for_each collect]. unfold bind, ret. rewrite Hbody.
  destruct (f x s) as [[r|e] s1]; [|reflexivity].
  rewrite IH.
  destruct (collect xs f s1) as [[rs|e] s2]; reflexivity.
Qed.

Lemma collect_length {A : Type} (f : A -> M run) (xs : list A) :
  forall (s s1 : @state Mdl W) rs,
    collect xs f s = (Ok rs, s1) -> List.length rs = List.length xs.
Proof.
  induction xs as [|x xs IH]; intros s s1 rs; cbn [collect].
  - unfold ret. intros [= <- _]. reflexivity.
  - unfold bind, ret. destruct (f x s) as [[r|e] s2]; [|discriminate].
    destruct (collect xs f s2) as [[rs'|e] s3] eqn:Hc; [|discriminate].
    intros [= <- _]. cbn [List.length]. f_equal. exact (IH _ _ _ Hc).
Qed.

Lemma multiple_times_body_run X Y test_size thr (k : Z) l (s : @state Mdl W) :
  multiple_times_body X Y test_size thr k l s
  = match split_run X Y test_size thr s with
    | (Ok r, s1) => (Ok (record_run false l r), s1)
    | (Raise e, s1) => (Raise e, s1)
    end.
Proof.
  unfold multiple_times_body, split_run, bind, ret, call_set_to_default,
    call_train_test_split, call_time, call_train.
  cbn [dipnn world stdout].
  repeat match goal with
         | |- context [train_test_split ?a ?b ?c ?d] =>
             destruct (train_test_split a b c d) as [[[[? ?] ?] ?] ?]
         | |- context [time_time ?w] => destruct (time_time w) as [? ?]
         | |- context [test ?a ?b ?c ?d] =>
             destruct (test a b c d) as [[[[[[[? ?] ?] ?] ?] ?]|?] ?]
         | _ => progress cbn [dipnn world stdout]
         end; reflexivity.
Qed.

Lemma k_fold_body_run X Y thr fold l (s : @state Mdl W) :
  k_fold_body X Y thr fold l s
  = match fold_run X Y thr fold s with
    | (Ok r, s1) => (Ok (record_run true l r), s1)
    | (Raise e, s1) => (Raise e, s1)
    end.
Proof.
  destruct fold as [train_index test_index].
  unfold k_fold_body, fold_run, bind, ret, lift, call_set_to_default,
    call_time, call_train.
  cbn [dipnn world stdout fst snd].
  repeat match goal with
         | |- context [take ?a ?b] => destruct (take a b) as [?|?]
         | |- context [time_time ?w] => destruct (time_time w) as [? ?]
         | |- context [test ?a ?b ?c ?d] =>
             destruct (test a b c d) as [[[[[[[? ?] ?] ?] ?] ?]|?] ?]
         | _ => progress cbn [dipnn world stdout]
         end; reflexivity.
Qed.

Lemma final_nonempty (rs : list run) :
  (0 < List.length rs)%nat -> exists rl, final rs = Some rl.
Proof.
  unfold final. destruct rs as [|r rs]; cbn [List.length]; [lia|].
  intros _. generalize (@None run). revert r.
  induction rs as [|r' rs IH]; intros r d; [exists r; reflexivity|].
  destruct (IH r' (Some r)) as [rl Hrl]. exists rl.
  cbn [map] in *. rewrite last_cons_default. exact Hrl.
Qed.

Lemma inject_Z_nonzero (n : Z) : (n <> 0)%Z -> Qeq_bool (inject_Z n) 0 = false.
Proof.
  intros Hn. apply not_true_is_false. intros Hq. apply Qeq_bool_iff in Hq.
  unfold Qeq, inject_Z in Hq. cbn [Qnum Qden] in Hq. lia.
Qed.

Lemma range_length (n : Z) : List.length (range n) = Z.to_nat n.
Proof. unfold range. rewrite length_map, length_seq. reflexivity. Qed.

Ltac locals_after_loop Hc :=
  rewrite Hc, fold_record_run;
  cbn [locals0 sum_acc sum_TP_rate sum_TN_rate sum_roc_auc accuracy_list
         roc_auc_list training_time test_time precision recall app];
  change (@None Q) with (option_map run_precision (@None run)) at 1;
  rewrite last_map_Some;
  change (@None Q) with (option_map run_recall (@None run)) at 1;
  rewrite last_map_Some.

Lemma evaluate_multiple_times_returns X Y (no_runs : Z) test_size
  coefficients_threshold coeff_precision thr (s s1 : @state Mdl W) rs :
  collect (range no_runs) (fun _ => split_run X Y test_size thr) s
  = (Ok rs, s1) ->
  (1 <= no_runs)%Z ->
  exists rl,
    final rs = Some rl /\
    evaluate_multiple_times X Y no_runs test_size coefficients_threshold
      coeff_precision thr s
    = (Ok (aggregate (inject_Z no_runs) rs),
       printing s1
         (report_multiple_times
            (get_the_model_representation (dipnn s1) coefficients_threshold
               coeff_precision)
            (inject_Z no_runs) rs rl)).
Proof.
  intros Hc Hn.
  destruct (final_nonempty rs) as [rl Hrl].
  { rewrite (collect_length _ _ _ _ _ Hc), range_length. lia. }
  exists rl. split; [exact Hrl|].
  unfold evaluate_multiple_times. unfold bind at 1.
  rewrite (for_each_collect _ (fun _ => split_run X Y test_size thr) false)
    by (intros; apply multiple_times_body_run).
  locals_after_loop Hc. fold (final rs). rewrite Hrl.
  unfold bind, pydiv, print, ret, read_local, call_get_the_model_representation.
  rewrite (inject_Z_nonzero no_runs) by lia.
  cbn [option_map dipnn world stdout]. unfold ret.
  cbn [dipnn world stdout].
  unfold aggregate, report_multiple_times, printing, avg_of, var_of, py_sum.
  rewrite <- !app_assoc. cbn [app]. reflexivity.
Qed.

Lemma evaluate_k_fold_returns X Y (n_folds : Z) coefficients_threshold
  coeff_precision thr seed folds (s s1 : @state Mdl W) rs :
  KFold_split n_folds seed X = Ok folds ->
  List.length folds = Z.to_nat n_folds ->
  collect folds (fold_run X Y thr) s = (Ok rs, s1) ->
  (1 <= n_folds)%Z ->
  exists rl,
    final rs = Some rl /\
    evaluate_k_fold X Y n_folds coefficients_threshold coeff_precision thr
      seed s
    = (Ok (aggregate (inject_Z n_folds) rs),
       printing s1
         (report_k_fold
            (get_the_model_representation (dipnn s1) coefficients_threshold
               coeff_precision)
            (inject_Z n_folds) rs rl)).
Proof.
  intros Hk Hlen Hc Hn.
  destruct (final_nonempty rs) as [rl Hrl].
  { rewrite (collect_length _ _ _ _ _ Hc), Hlen. lia. }
  exists rl. split; [exact Hrl|].
  unfold evaluate_k_fold. unfold bind at 1. unfold lift at 1. rewrite Hk.
  unfold bind at 1.
  rewrite (for_each_collect _ (fold_run X Y thr) true)
    by (intros; apply k_fold_body_run).
  locals_after_loop Hc. fold (final rs). rewrite Hrl.
  unfold bind, pydiv, print, ret, read_local, call_get_the_model_representation.
  rewrite (inject_Z_nonzero n_folds) by lia.
  cbn [option_map dipnn world stdout]. unfold ret.
  cbn [dipnn world stdout].
  unfold aggregate, report_k_fold, printing, avg_of, var_of, py_sum.
  rewrite <- !app_assoc. cbn [app]. reflexivity.
Qed.

End Drivers.

(** ** Claims about the drivers *)

Lemma avg_of_runs {A} (n : Z) (g : A -> Q) (rs : list A) :
  List.length rs = Z.to_nat n -> (1 <= n)%Z ->
  avg_of (inject_Z n) (map g rs) == mean (map g rs).
Proof.
  intros Hlen Hn. rewrite <- avg_of_mean. unfold qnat.
  rewrite length_map, Hlen, Z2Nat.id by lia. reflexivity.
Qed.

Lemma var_of_runs {A} (n : Z) (g : A -> Q) (rs : list A) :
  List.length rs = Z.to_nat n -> (1 <= n)%Z ->
  var_of (inject_Z n) (map g rs) (avg_of (inject_Z n) (map g rs))
  == population_variance (map g rs).
Proof.
  intros Hlen Hn.
  rewrite <- (var_of_population_variance (map g rs)
                (avg_of (inject_Z n) (map g rs)))
    by (apply avg_of_runs; assumption).
  unfold qnat. rewrite length_map, Hlen, Z2Nat.id by lia. reflexivity.
Qed.

Lemma aggregate_summarises (n : Z) (rs : list run) :
  List.length rs = Z.to_nat n -> (1 <= n)%Z ->
  summarises (aggregate (inject_Z n) rs) rs.
Proof.
  intros Hlen Hn. unfold summarises, aggregate.
  cbn [avg_accuracy avg_training var_training avg_test var_test avg_TP_rate
         avg_TN_rate avg_auc].
  repeat split; first [apply avg_of_runs | apply var_of_runs]; assumption.
Qed.

Section DriverClaims.

Context {Mdl W : Type} {Cls : Classifier Mdl} {Env : Environment W}.



(** C10.  [evaluate_multiple_times] needs [no_runs >= 1].  With
    [no_runs = 0] the loop body never runs, precision and recall stay
    unbound, and the first aggregate, a division by [float(no_runs)],
    raises [ZeroDivisionError] before anything is printed; no value of
    [no_runs] below 1 yields a result. *)
Theorem evaluate_multiple_times_needs_a_run X Y test_size
  coefficients_threshold coeff_precision thr (s : @state Mdl W) :
  evaluate_multiple_times X Y 0 test_size coefficients_threshold
    coeff_precision thr s = (Raise ZeroDivisionError, s)
  /\ (for_each (range 0) (multiple_times_body X Y test_size thr) locals0 s
      = (Ok locals0, s)
      /\ precision locals0 = None /\ recall locals0 = None)
  /\ (forall no_runs r s',
        evaluate_multiple_times X Y no_runs test_size coefficients_threshold
          coeff_precision thr s = (Ok r, s') ->
        (1 <= no_runs)%Z).
Proof.
  split; [reflexivity|]. split; [repeat split|].
  intros no_runs r s' Hev.
  destruct (Z_lt_le_dec no_runs 1) as [Hlt|Hge]; [exfalso|exact Hge].
  revert Hev. unfold evaluate_multiple_times, range.
  replace (Z.to_nat no_runs) with 0%nat by lia.
  cbn [seq map for_each]. unfold bind at 1. unfold ret at 1.
  destruct (Z.eq_dec no_runs 0) as [->|Hnz]; [discriminate|].
  unfold bind, pydiv, print, ret, read_local, raise,
    call_get_the_model_representation.
  cbn [locals0 sum_acc sum_TP_rate sum_TN_rate sum_roc_auc accuracy_list
         roc_auc_list training_time test_time precision recall].
  rewrite (inject_Z_nonzero no_runs Hnz). discriminate.
Qed.

End DriverClaims.


(** * Further properties *)

(** ** [test] beyond equal lengths *)

Lemma count_loop_pairs (Yb Y : vector) :
  let l := combine Yb Y in
  count_loop Yb Y
  = mkCounts
      (qnat (pairs (fun y_p y => negb (Qeq_bool y_p y)) l))
      (qnat (pairs (fun _ y => Qeq_bool y 0) l))
      (qnat (pairs (fun _ y => Qeq_bool y 1) l))
      (qnat (pairs (fun y_p y => Qeq_bool y 0 && Qeq_bool y_p 0) l))
      (qnat (pairs (fun y_p y => Qeq_bool y 1 && Qeq_bool y_p 1) l)).
Proof.
  intros l. unfold count_loop, counts0. fold l.
  change 0 with (qnat 0). rewrite fold_count_step. reflexivity.
Qed.

Lemma count_loop_truncates (Yb Y : vector) :
  let k := Nat.min (List.length Yb) (List.length Y) in
  count_loop Yb Y = count_loop (firstn k Yb) (firstn k Y).
Proof.
  intros k. unfold count_loop. f_equal.
  rewrite <- combine_firstn. symmetry. apply firstn_all2.
  rewrite length_combine. apply Nat.le_refl.
Qed.

Lemma fraction_bounds (a b : Q) :
  0 <= a -> 0 <= b -> ~ a + b == 0 ->
  0 <= a / (a + b) /\ a / (a + b) <= 1.
Proof.
  intros Ha Hb Hnz. assert (Hpos : 0 < a + b) by lra. split.
  - apply Qle_shift_div_l; [exact Hpos|]. lra.
  - apply Qle_shift_div_r; [exact Hpos|]. lra.
Qed.

Lemma qnat_add_sub (a n m : nat) :
  (m <= n)%nat -> qnat a + qnat n - qnat m == qnat (a + (n - m)).
Proof.
  intros Hmn. unfold qnat, inject_Z, Qeq, Qplus, Qminus, Qopp.
  cbn [Qnum Qden Qplus]. lia.
Qed.

Lemma Qeq_bool_ext (x y : Q) : x == y -> Qeq_bool x 0 = Qeq_bool y 0.
Proof.
  intros Hxy. destruct (Qeq_bool y 0) eqn:Hy.
  - apply Qeq_bool_iff. apply Qeq_bool_iff in Hy. rewrite Hxy. exact Hy.
  - apply not_true_is_false. intros Hx. apply Qeq_bool_iff in Hx.
    rewrite Hxy in Hx. apply Qeq_bool_iff in Hx. congruence.
Qed.

Section MoreTest.

Context {Mdl W : Type} {Cls : Classifier Mdl} {Env : Environment W}.

(** Whenever [test] returns, whatever the lengths. *)
Lemma test_ok_general (s s' : @state Mdl W) X Y thr Yb0 Ys r :
  predict (dipnn s) X = (Yb0, Ys) ->
  test X Y thr s = (Ok r, s') ->
  let Yb := apply_threshold thr Yb0 Ys in
  let c := count_loop Yb Y in
  Yb <> [] /\
  r = (1 - n_errors c / qnat (List.length Yb), TP_rate_of c, TN_rate_of c,
       precision_of c, TP_rate_of c, ret_auc r) /\
  roc_auc_score (auc_labels Y) Ys = Ok (ret_auc r) /\
  s' = printing s (advisories c).
Proof.
  intros Hp Ht Yb c. rewrite (test_metrics s X Y thr Yb0 Ys Hp) in Ht.
  fold Yb in Ht. destruct (metrics_ok_inv _ _ _ _ _ _ Ht) as [Hne [auc Hauc]].
  rewrite (metrics_returns Yb Ys Y s auc Hne Hauc) in Ht. fold c in Ht.
  injection Ht as Hr Hs. subst r s'. cbn [ret_auc]. auto.
Qed.

(** X1.  When [test] returns on vectors of equal length it changes
    nothing but the console, where it appends, in this order, the
    advisory on positives exactly when no label is 1, the advisory on
    negatives exactly when no label is 0, and the advisory on true
    positives exactly when TP = 0 and TN = N. *)
Theorem test_prints_advisories (s s' : @state Mdl W) X Y thr Yb0 Ys r :
  predict (dipnn s) X = (Yb0, Ys) ->
  let Yb := apply_threshold thr Yb0 Ys in
  List.length Yb = List.length Y ->
  test X Y thr s = (Ok r, s') ->
  dipnn s' = dipnn s /\ world s' = world s
  /\ stdout s' = stdout s
                 ++ advisory_lines (positive_count Y) (negative_count Y)
                      (true_positive_count Yb Y) (true_negative_count Yb Y).
Proof.
  intros Hp Yb Hlen Ht.
  destruct (test_ok_inv s s' X Y thr Yb0 Ys r Hp Hlen Ht) as (_ & _ & _ & Hs).
  fold Yb in Hs. subst s'. cbn [printing dipnn world stdout].
  split; [reflexivity|]. split; [reflexivity|]. f_equal.
  unfold advisories, advisory_lines. cbn [P N TP TN].
  rewrite !qnat_eq_bool_0.
  rewrite (Qeq_bool_ext _ _
             (qnat_add_sub (true_positive_count Yb Y) (negative_count Y)
                (true_negative_count Yb Y) (true_negative_le Yb Y Hlen))).
  rewrite qnat_eq_bool_0.
  destruct (Nat.eqb (true_positive_count Yb Y
                     + (negative_count Y - true_negative_count Yb Y)) 0);
    reflexivity.
Qed.

(** X2.  Whatever the lengths of the two vectors, the counts run over
    the first [min] positions only while the accuracy still divides by
    the number of predictions; accuracy, both rates and the precision
    that [test] returns all lie between 0 and 1. *)
Theorem test_bounds_any_length (s s' : @state Mdl W) X Y thr Yb0 Ys r :
  predict (dipnn s) X = (Yb0, Ys) ->
  test X Y thr s = (Ok r, s') ->
  let Yb := apply_threshold thr Yb0 Ys in
  let k := Nat.min (List.length Yb) (List.length Y) in
  ret_accuracy r
  = 1 - qnat (mismatch_count (firstn k Yb) (firstn k Y))
        / qnat (List.length Yb)
  /\ (0 <= ret_accuracy r /\ ret_accuracy r <= 1)
  /\ (0 <= ret_TP_rate r /\ ret_TP_rate r <= 1)
  /\ (0 <= ret_TN_rate r /\ ret_TN_rate r <= 1)
  /\ (0 <= ret_precision r /\ ret_precision r <= 1).
Proof.
  intros Hp Ht Yb k.
  destruct (test_ok_general s s' X Y thr Yb0 Ys r Hp Ht) as (Hne & Hr & _ & _).
  fold Yb in Hne, Hr. rewrite (count_loop_truncates Yb Y) in Hr. fold k in Hr.
  assert (Hk : List.length (firstn k Yb) = List.length (firstn k Y)).
  { rewrite !length_firstn. unfold k. lia. }
  rewrite (count_loop_counts _ _ Hk) in Hr.
  set (Ybk := firstn k Yb) in *. set (Yk := firstn k Y) in *.
  assert (Hm : (mismatch_count Ybk Yk <= List.length Yb)%nat).
  { etransitivity; [apply (positions_le_length _ Ybk Yk Hk)|].
    unfold Ybk. rewrite length_firstn. lia. }
  assert (Hpos : (0 < List.length Yb)%nat)
    by (destruct Yb; [contradiction|simpl; lia]).
  pose proof (true_positive_le Ybk Yk Hk) as HTP.
  pose proof (true_negative_le Ybk Yk Hk) as HTN.
  rewrite Hr.
  cbn [ret_accuracy ret_TP_rate ret_TN_rate ret_precision n_errors].
  split; [reflexivity|].
  destruct (ratio_bounds _ _ Hm Hpos) as [Ha0 Ha1].
  split; [split; lra|].
  unfold TP_rate_of, TN_rate_of, precision_of. cbn [P N TP TN].
  rewrite !qnat_eq_bool_0.
  split; [|split].
  - destruct (Nat.eqb_spec (positive_count Yk) 0); [split; lra|].
    apply ratio_bounds; lia.
  - destruct (Nat.eqb_spec (negative_count Yk) 0); [split; lra|].
    apply ratio_bounds; lia.
  - destruct (Qeq_bool (qnat (true_positive_count Ybk Yk)
                        + qnat (negative_count Yk)
                        - qnat (true_negative_count Ybk Yk)) 0) eqn:Hd;
      cbn [negb]; [split; lra|].
    pose proof (qnat_nonneg (true_positive_count Ybk Yk)) as H0.
    pose proof (qnat_le _ _ HTN) as H1.
    assert (Hnz : ~ qnat (true_positive_count Ybk Yk)
                    + (qnat (negative_count Yk)
                       - qnat (true_negative_count Ybk Yk)) == 0).
    { intros Hz. apply not_true_iff_false in Hd. apply Hd.
      apply Qeq_bool_iff. rewrite <- Hz. ring. }
    assert (H2 : 0 <= qnat (negative_count Yk)
                      - qnat (true_negative_count Ybk Yk)) by lra.
    destruct (fraction_bounds _ _ H0 H2 Hnz) as [Hf0 Hf1].
    assert (Hden : qnat (true_positive_count Ybk Yk)
                   + qnat (negative_count Yk)
                   - qnat (true_negative_count Ybk Yk)
                   == qnat (true_positive_count Ybk Yk)
                      + (qnat (negative_count Yk)
                         - qnat (true_negative_count Ybk Yk))) by ring.
    rewrite Hden. split; assumption.
Qed.

End MoreTest.

(** ** Binary vectors, thresholds and perfect predictions *)

Lemma qnat_add (a b : nat) : qnat (a + b) == qnat a + qnat b.
Proof.
  unfold qnat, inject_Z, Qeq, Qplus. cbn [Qnum Qden]. lia.
Qed.

Lemma Qeq_bool_eq (x y : Q) : x == y -> Qeq_bool x y = true.
Proof. apply Qeq_bool_iff. Qed.

Lemma Qeq_bool_ne (x y : Q) : ~ x == y -> Qeq_bool x y = false.
Proof.
  intros Hne. apply not_true_is_false. intros Hb. apply Hne, Qeq_bool_iff, Hb.
Qed.

Lemma binary_combine (Yb Y : vector) :
  binary Yb -> binary Y ->
  Forall (fun yy => (fst yy == 0 \/ fst yy == 1)
                    /\ (snd yy == 0 \/ snd yy == 1)) (combine Yb Y).
Proof.
  intros Hb. revert Y. induction Hb as [|y_p Yb Hy_p _ IH]; intros Y HY;
    [constructor|].
  destruct HY as [|y Y Hy HY]; constructor; [split; assumption|].
  apply IH, HY.
Qed.

(** On binary pairs every position is a mismatch, a true positive or a
    true negative, and every label is a positive or a negative. *)
Lemma pairs_partition (l : list (Q * Q)) :
  Forall (fun yy => (fst yy == 0 \/ fst yy == 1)
                    /\ (snd yy == 0 \/ snd yy == 1)) l ->
  (pairs (fun y_p y => negb (Qeq_bool y_p y)) l
   + pairs (fun y_p y => Qeq_bool y 1 && Qeq_bool y_p 1) l
   + pairs (fun y_p y => Qeq_bool y 0 && Qeq_bool y_p 0) l
   = List.length l)%nat
  /\ (pairs (fun _ y => Qeq_bool y 1) l + pairs (fun _ y => Qeq_bool y 0) l
      = List.length l)%nat.
Proof.
  induction 1 as [|[y_p y] l [Hy_p Hy] _ [IH1 IH2]]; [split; reflexivity|].
  rewrite !pairs_cons. cbn [fst snd List.length] in *.
  assert (H01 : ~ 0 == 1) by (intros Hc; discriminate Hc).
  assert (H10 : ~ 1 == 0) by (intros Hc; discriminate Hc).
  destruct Hy_p as [Hy_p|Hy_p], Hy as [Hy|Hy];
    rewrite ?(Qeq_bool_eq y_p 0), ?(Qeq_bool_eq y_p 1), ?(Qeq_bool_eq y 0),
      ?(Qeq_bool_eq y 1), ?(Qeq_bool_ne y_p 0), ?(Qeq_bool_ne y_p 1),
      ?(Qeq_bool_ne y 0), ?(Qeq_bool_ne y 1), ?(Qeq_bool_eq y_p y),
      ?(Qeq_bool_ne y_p y)
      by (rewrite ?Hy_p, ?Hy; first [reflexivity | assumption]);
    cbn [negb andb]; split; lia.
Qed.

Lemma apply_threshold_binary (thr : Q) (Yb0 Ys : vector) :
  0 <= thr -> binary (apply_threshold thr Yb0 Ys).
Proof.
  intros Hthr. unfold apply_threshold, binary.
  apply Qle_bool_iff in Hthr. rewrite Hthr.
  induction Ys as [|score Ys IH]; constructor; [|exact IH].
  destruct (Qle_bool thr score); [right|left]; reflexivity.
Qed.

Lemma pairs_labels_only (g : Q -> bool) (Yb Yb' Y : vector) :
  List.length Yb = List.length Yb' ->
  pairs (fun _ y => g y) (combine Yb Y) = pairs (fun _ y => g y) (combine Yb' Y).
Proof.
  revert Yb' Y. induction Yb as [|a Yb IH]; intros [|a' Yb'] Y Hlen;
    try discriminate; [reflexivity|].
  destruct Y as [|y Y]; [reflexivity|]. injection Hlen as Hlen.
  cbn [combine]. rewrite !pairs_cons. cbn [snd]. rewrite (IH Yb' Y Hlen).
  reflexivity.
Qed.

(** Raising the threshold can only turn predicted positives into
    predicted negatives. *)
Lemma threshold_counts_monotone (thr1 thr2 : Q) (Ys Y : vector) :
  thr1 <= thr2 ->
  let cut thr := map (fun score => if Qle_bool thr score then 1 else 0) Ys in
  (pairs (fun y_p y => Qeq_bool y 1 && Qeq_bool y_p 1) (combine (cut thr2) Y)
   <= pairs (fun y_p y => Qeq_bool y 1 && Qeq_bool y_p 1)
        (combine (cut thr1) Y))%nat
  /\ (pairs (fun y_p y => Qeq_bool y 0 && Qeq_bool y_p 0)
        (combine (cut thr1) Y)
      <= pairs (fun y_p y => Qeq_bool y 0 && Qeq_bool y_p 0)
           (combine (cut thr2) Y))%nat.
Proof.
  intros Hthr cut. unfold cut. clear cut. revert Y.
  induction Ys as [|score Ys IH]; intros Y; [split; apply Nat.le_refl|].
  destruct Y as [|y Y]; [split; apply Nat.le_refl|].
  cbn [map combine]. rewrite !pairs_cons. cbn [fst snd].
  destruct (IH Y) as [IH1 IH2].
  assert (Himp : Qle_bool thr2 score = true -> Qle_bool thr1 score = true).
  { intros H2. apply Qle_bool_iff. apply Qle_bool_iff in H2. lra. }
  destruct (Qle_bool thr2 score), (Qle_bool thr1 score);
    try (specialize (Himp eq_refl); discriminate);
    destruct (Qeq_bool y 1), (Qeq_bool y 0); cbn; split; lia.
Qed.

Lemma pairs_diagonal (p : Q -> Q -> bool) (Y : vector) :
  pairs p (combine Y Y) = List.length (filter (fun y => p y y) Y).
Proof.
  induction Y as [|y Y IH]; [reflexivity|].
  cbn [combine filter]. rewrite pairs_cons, IH. cbn [fst snd].
  destruct (p y y); reflexivity.
Qed.

Lemma Qdiv_le_compat (a b c : Q) : 0 <= c -> a <= b -> a / c <= b / c.
Proof.
  intros Hc Hab. unfold Qdiv. apply Qmult_le_compat_r; [exact Hab|].
  apply Qinv_le_0_compat, Hc.
Qed.

Section TestAlgebra.

Context {Mdl W : Type} {Cls : Classifier Mdl} {Env : Environment W}.

(** X3.  On binary labels and binary predictions of equal length (the
    predictions are binary by themselves once the threshold is at least
    0) every position is a mismatch, a true positive or a true negative
    and every label counts as positive or negative, so the error count
    the accuracy of [test] is computed from is the length less TP and
    TN: accuracy = 1 - (length - (TP + TN)) / length. *)
Theorem test_accuracy_binary (s s' : @state Mdl W) X Y thr Yb0 Ys r :
  predict (dipnn s) X = (Yb0, Ys) ->
  let Yb := apply_threshold thr Yb0 Ys in
  List.length Yb = List.length Y ->
  binary Y ->
  0 <= thr \/ binary Yb0 ->
  test X Y thr s = (Ok r, s') ->
  (mismatch_count Yb Y + true_positive_count Yb Y + true_negative_count Yb Y
   = List.length Yb)%nat
  /\ (positive_count Y + negative_count Y = List.length Y)%nat
  /\ ret_accuracy r
     = 1 - qnat (List.length Yb
                 - (true_positive_count Yb Y + true_negative_count Yb Y))
           / qnat (List.length Yb).
Proof.
  intros Hp Yb Hlen HY Hbin Ht.
  assert (HYb : binary Yb).
  { destruct Hbin as [Hthr|Hb0]; [apply apply_threshold_binary, Hthr|].
    destruct (Qle_bool 0 thr) eqn:Hb.
    - apply apply_threshold_binary, Qle_bool_iff, Hb.
    - unfold Yb, apply_threshold. rewrite Hb. exact Hb0. }
  destruct (pairs_partition _ (binary_combine Yb Y HYb HY)) as [Hsum HPN].
  rewrite length_combine, <- Hlen, Nat.min_id in Hsum, HPN.
  assert (Hcounts :
            (mismatch_count Yb Y + true_positive_count Yb Y
             + true_negative_count Yb Y = List.length Yb)%nat).
  { unfold mismatch_count, true_positive_count, true_negative_count.
    rewrite !(positions_pairs _ _ _ Hlen). exact Hsum. }
  split; [exact Hcounts|]. split.
  { unfold positive_count, negative_count.
    rewrite (label_count_pairs 1 _ _ Hlen), (label_count_pairs 0 _ _ Hlen),
      <- Hlen.
    exact HPN. }
  destruct (test_ok_inv s s' X Y thr Yb0 Ys r Hp Hlen Ht) as (_ & Hr & _ & _).
  fold Yb in Hr. rewrite Hr. cbn [ret_accuracy n_errors].
  replace (List.length Yb
           - (true_positive_count Yb Y + true_negative_count Yb Y))%nat
    with (mismatch_count Yb Y) by lia.
  reflexivity.
Qed.

(** X4.  The AUC [test] returns does not depend on the threshold: two
    returning calls on the same data agree on it, and with thresholds of
    at least 0 a call returns as soon as the call at another threshold
    does. *)
Theorem test_auc_ignores_threshold (s s1 : @state Mdl W) X Y thr1 thr2 r1 :
  test X Y thr1 s = (Ok r1, s1) ->
  (forall r2 s2, test X Y thr2 s = (Ok r2, s2) -> ret_auc r2 = ret_auc r1)
  /\ (0 <= thr1 -> 0 <= thr2 ->
      exists r2 s2, test X Y thr2 s = (Ok r2, s2) /\ ret_auc r2 = ret_auc r1).
Proof.
  intros Ht1. destruct (predict (dipnn s) X) as [Yb0 Ys] eqn:Hp.
  destruct (test_ok_general s s1 X Y thr1 Yb0 Ys r1 Hp Ht1)
    as (Hne1 & _ & Hauc1 & _).
  split.
  - intros r2 s2 Ht2.
    destruct (test_ok_general s s2 X Y thr2 Yb0 Ys r2 Hp Ht2)
      as (_ & _ & Hauc2 & _).
    rewrite Hauc1 in Hauc2. injection Hauc2 as Hauc2. symmetry. exact Hauc2.
  - intros H1 H2. rewrite (test_metrics s X Y thr2 Yb0 Ys Hp).
    assert (Hne2 : apply_threshold thr2 Yb0 Ys <> []).
    { revert Hne1. unfold apply_threshold.
      apply Qle_bool_iff in H1, H2. rewrite H1, H2.
      destruct Ys; [intros Hc; contradiction|discriminate]. }
    rewrite (metrics_returns _ Ys Y s (ret_auc r1) Hne2 Hauc1).
    eexists _, _. split; reflexivity.
Qed.

(** X5.  Raising a threshold of at least 0 never raises the TP-rate
    (recall) and never lowers the TN-rate that [test] returns. *)
Theorem test_threshold_monotone (s s1 s2 : @state Mdl W) X Y thr1 thr2 r1 r2 :
  0 <= thr1 -> thr1 <= thr2 ->
  test X Y thr1 s = (Ok r1, s1) ->
  test X Y thr2 s = (Ok r2, s2) ->
  ret_TP_rate r2 <= ret_TP_rate r1 /\ ret_TN_rate r1 <= ret_TN_rate r2.
Proof.
  intros H1 H12 Ht1 Ht2. destruct (predict (dipnn s) X) as [Yb0 Ys] eqn:Hp.
  destruct (test_ok_general s s1 X Y thr1 Yb0 Ys r1 Hp Ht1) as (_ & Hr1 & _).
  destruct (test_ok_general s s2 X Y thr2 Yb0 Ys r2 Hp Ht2) as (_ & Hr2 & _).
  assert (H2 : 0 <= thr2) by lra.
  revert Hr1 Hr2. unfold apply_threshold.
  apply Qle_bool_iff in H1, H2. rewrite H1, H2. rewrite !count_loop_pairs.
  intros -> ->. cbn [ret_TP_rate ret_TN_rate].
  unfold TP_rate_of, TN_rate_of. cbn [P N TP TN].
  destruct (threshold_counts_monotone thr1 thr2 Ys Y H12) as [HTP HTN].
  cbn zeta in HTP, HTN.
  set (cut1 := map (fun score => if Qle_bool thr1 score then 1 else 0) Ys) in *.
  set (cut2 := map (fun score => if Qle_bool thr2 score then 1 else 0) Ys) in *.
  assert (Hlen : List.length cut2 = List.length cut1)
    by (unfold cut1, cut2; rewrite !length_map; reflexivity).
  rewrite !(pairs_labels_only _ cut2 cut1 Y Hlen).
  split.
  - destruct (Qeq_bool _ 0); [apply Qle_refl|].
    apply Qdiv_le_compat; [apply qnat_nonneg|apply qnat_le, HTP].
  - destruct (Qeq_bool _ 0); [apply Qle_refl|].
    apply Qdiv_le_compat; [apply qnat_nonneg|apply qnat_le, HTN].
Qed.

(** X6.  When the model's own binary predictions are the labels and the
    threshold is negative, [test] returns accuracy 1, TP-rate 1 and
    TN-rate 1; the precision is 1 when some label is 1 and 0 when none
    is. *)
Theorem test_perfect_predictions (s s' : @state Mdl W) X Y thr Ys r :
  predict (dipnn s) X = (Y, Ys) ->
  thr < 0 ->
  test X Y thr s = (Ok r, s') ->
  ret_accuracy r == 1 /\ ret_TP_rate r == 1 /\ ret_TN_rate r == 1
  /\ ((0 < positive_count Y)%nat -> ret_precision r == 1)
  /\ (positive_count Y = 0%nat -> ret_precision r = 0).
Proof.
  intros Hp Hthr Ht.
  destruct (test_ok_general s s' X Y thr Y Ys r Hp Ht) as (Hne & Hr & _).
  assert (Hown : apply_threshold thr Y Ys = Y).
  { unfold apply_threshold. destruct (Qle_bool 0 thr) eqn:Hb; [|reflexivity].
    apply Qle_bool_iff in Hb. lra. }
  rewrite Hown in Hne, Hr. rewrite count_loop_pairs in Hr.
  rewrite !pairs_diagonal in Hr.
  assert (Hmis : filter (fun y => negb (Qeq_bool y y)) Y = []).
  { clear. induction Y as [|y Y IH]; [reflexivity|]. cbn [filter].
    rewrite (Qeq_bool_eq y y (Qeq_refl y)). exact IH. }
  assert (Hdiag : forall v,
             filter (fun y => Qeq_bool y v && Qeq_bool y v) Y
             = filter (fun y => Qeq_bool y v) Y).
  { intros v. apply filter_ext. intros y. apply andb_diag. }
  rewrite Hmis, !Hdiag in Hr. fold (positive_count Y) in Hr.
  fold (negative_count Y) in Hr. rewrite Hr.
  cbn [ret_accuracy ret_TP_rate ret_TN_rate ret_precision n_errors].
  unfold TP_rate_of, TN_rate_of, precision_of. cbn [P N TP TN List.length].
  assert (Hpos : 0 < qnat (List.length Y))
    by (apply qnat_pos; destruct Y; [contradiction|simpl; lia]).
  assert (Hden : qnat (positive_count Y) + qnat (negative_count Y)
                 - qnat (negative_count Y) == qnat (positive_count Y)) by ring.
  rewrite (Qeq_bool_ext _ _ Hden), !qnat_eq_bool_0.
  split; [|split; [|split; [|split]]].
  - change (qnat 0) with 0. field. lra.
  - destruct (Nat.eqb_spec (positive_count Y) 0) as [_|Hn]; [reflexivity|].
    field. pose proof (qnat_pos (positive_count Y) ltac:(lia)). lra.
  - destruct (Nat.eqb_spec (negative_count Y) 0) as [_|Hn]; [reflexivity|].
    field. pose proof (qnat_pos (negative_count Y) ltac:(lia)). lra.
  - intros HP. destruct (Nat.eqb_spec (positive_count Y) 0) as [Hz|_]; [lia|].
    cbn [negb]. rewrite Hden. field.
    pose proof (qnat_pos (positive_count Y) HP). lra.
  - intros ->. reflexivity.
Qed.

End TestAlgebra.

(** ** What reaches the console *)

Section Console.

Context {Mdl W : Type} {Cls : Classifier Mdl} {Env : Environment W}.

Lemma quiet_ret {A} (a : A) : quiet (@ret Mdl W A a).
Proof. intros s. exists []. cbn. rewrite app_nil_r. split; constructor. Qed.

Lemma quiet_raise {A} (e : exn) : quiet (@raise Mdl W A e).
Proof. intros s. exists []. cbn. rewrite app_nil_r. split; constructor. Qed.

Lemma quiet_lift {A} (r : result A) : quiet (@lift Mdl W A r).
Proof. intros s. exists []. cbn. rewrite app_nil_r. split; constructor. Qed.

Lemma quiet_bind {A B} (m : @M Mdl W A) (f : A -> @M Mdl W B) :
  quiet m -> (forall a, quiet (f a)) -> quiet (bind m f).
Proof.
  intros Hm Hf s. unfold bind. destruct (Hm s) as (out1 & H1 & Ha1).
  destruct (m s) as [[a|e] s1]; cbn [snd] in *.
  - destruct (Hf a s1) as (out2 & H2 & Ha2). exists (out1 ++ out2).
    rewrite H2, H1, app_assoc. split; [reflexivity|].
    apply Forall_app. split; assumption.
  - exists out1. split; assumption.
Qed.

Lemma quiet_state_only {A} (m : @M Mdl W A) :
  (forall s, stdout (snd (m s)) = stdout s) -> quiet m.
Proof.
  intros Hm s. exists []. rewrite Hm, app_nil_r. split; constructor.
Qed.

Lemma quiet_pydiv (a b : Q) : quiet (@pydiv Mdl W a b).
Proof.
  unfold pydiv. destruct (Qeq_bool b 0); [apply quiet_raise|apply quiet_ret].
Qed.

Lemma quiet_print_advisory (l : line) : advisory l -> quiet (@print Mdl W l).
Proof.
  intros Hl s. exists [l]. split; [reflexivity|]. constructor; [exact Hl|].
  constructor.
Qed.

Lemma quiet_call_time : quiet (@call_time Mdl W Env).
Proof.
  apply quiet_state_only. intros s. unfold call_time.
  destruct (time_time (world s)). reflexivity.
Qed.

Lemma quiet_call_train_test_split X Y test_size :
  quiet (@call_train_test_split Mdl W Env X Y test_size).
Proof.
  apply quiet_state_only. intros s. unfold call_train_test_split.
  destruct (train_test_split X Y test_size (world s)). reflexivity.
Qed.

Lemma quiet_metrics (Yb Ys Y : vector) : quiet (Mdl := Mdl) (metrics Yb Ys Y).
Proof.
  unfold metrics.
  repeat first
    [ apply quiet_bind; [|intros ?]
    | apply quiet_ret
    | apply quiet_pydiv
    | apply quiet_lift
    | apply quiet_print_advisory; unfold advisory; cbn; tauto
    | match goal with
      | |- quiet (if ?b then _ else _) => destruct b
      end ].
Qed.

Lemma quiet_test X Y thr : quiet (Mdl := Mdl) (test X Y thr).
Proof.
  unfold test. apply quiet_bind.
  - apply quiet_state_only. reflexivity.
  - intros [Yb0 Ys]. apply quiet_metrics.
Qed.

Lemma quiet_split_run X Y test_size thr : quiet (Mdl := Mdl) (split_run X Y test_size thr).
Proof.
  unfold split_run.
  repeat first
    [ apply quiet_test
    | apply quiet_call_time
    | apply quiet_call_train_test_split
    | apply quiet_bind; [|intros ?]
    | apply quiet_ret
    | apply quiet_state_only; reflexivity
    | match goal with
      | |- quiet (match ?x with _ => _ end) => destruct x
      end ].
Qed.

Lemma quiet_fold_run X Y thr fold : quiet (Mdl := Mdl) (fold_run X Y thr fold).
Proof.
  unfold fold_run.
  repeat first
    [ apply quiet_test
    | apply quiet_call_time
    | apply quiet_lift
    | apply quiet_bind; [|intros ?]
    | apply quiet_ret
    | apply quiet_state_only; reflexivity
    | match goal with
      | |- quiet (match ?x with _ => _ end) => destruct x
      end ].
Qed.

Lemma quiet_collect {A} (f : A -> @M Mdl W run) (xs : list A) :
  (forall x, quiet (f x)) -> quiet (collect xs f).
Proof.
  intros Hf. induction xs as [|x xs IH]; cbn [collect]; [apply quiet_ret|].
  apply quiet_bind; [apply Hf|]. intros r.
  apply quiet_bind; [exact IH|]. intros rs. apply quiet_ret.
Qed.

End Console.

(** ** The drivers at their edges *)

Lemma total_nonneg (l : list Q) : Forall (fun x => 0 <= x) l -> 0 <= total l.
Proof.
  induction 1 as [|x l Hx _ IH]; cbn [total fold_right]; [apply Qle_refl|].
  fold (total l). lra.
Qed.

Lemma total_le_length (l : list Q) :
  Forall fraction l -> 0 <= total l /\ total l <= qnat (List.length l).
Proof.
  induction 1 as [|x l [Hx0 Hx1] _ [IH0 IH1]]; cbn [total fold_right List.length].
  - split; apply Qle_refl.
  - fold (total l). rewrite <- qnat_succ. split; lra.
Qed.

Lemma mean_fraction (l : list Q) :
  l <> [] -> Forall fraction l -> fraction (mean l).
Proof.
  intros Hne Hl. destruct (total_le_length l Hl) as [H0 H1].
  assert (Hpos : 0 < qnat (List.length l))
    by (apply qnat_pos; destruct l; [contradiction|simpl; lia]).
  unfold mean, fraction. split.
  - apply Qle_shift_div_l; [exact Hpos|]. lra.
  - apply Qle_shift_div_r; [exact Hpos|]. lra.
Qed.

Lemma population_variance_nonneg (l : list Q) : 0 <= population_variance l.
Proof.
  unfold population_variance. unfold Qdiv. apply Qmult_le_0_compat.
  - apply total_nonneg. apply Forall_forall. intros y Hy.
    apply in_map_iff in Hy. destruct Hy as (x & <- & _).
    generalize (x - mean l). intros d.
    destruct (Qlt_le_dec d 0) as [Hd|Hd]; nra.
  - apply Qinv_le_0_compat, qnat_nonneg.
Qed.

Section DriverEdges.

Context {Mdl W : Type} {Cls : Classifier Mdl} {Env : Environment W}.

Lemma collect_ok_forall {A} (f : A -> @M Mdl W run) (Pr : run -> Prop) :
  (forall x s r s', f x s = (Ok r, s') -> Pr r) ->
  forall xs s rs s', collect xs f s = (Ok rs, s') -> Forall Pr rs.
Proof.
  intros Hf. induction xs as [|x xs IH]; intros s rs s'; cbn [collect].
  - unfold ret. intros [= <- _]. constructor.
  - unfold bind, ret. destruct (f x s) as [[r|e] s1] eqn:Hfx; [|discriminate].
    destruct (collect xs f s1) as [[rs'|e] s2] eqn:Hc; [|discriminate].
    intros [= <- _]. constructor; [exact (Hf _ _ _ _ Hfx)|exact (IH _ _ _ Hc)].
Qed.

(** Whenever [test] returns, its accuracy, rates and precision are
    fractions. *)
Lemma test_returns_fractions (s s' : @state Mdl W) X Y thr r :
  test X Y thr s = (Ok r, s') ->
  fraction (ret_accuracy r) /\ fraction (ret_TP_rate r)
  /\ fraction (ret_TN_rate r) /\ fraction (ret_precision r).
Proof.
  intros Ht. destruct (predict (dipnn s) X) as [Yb0 Ys] eqn:Hp.
  destruct (test_ok_general s s' X Y thr Yb0 Ys r Hp Ht) as (Hne & Hr & _ & _).
  set (Yb := apply_threshold thr Yb0 Ys) in *.
  rewrite count_loop_pairs in Hr. cbn zeta in Hr.
  set (l := combine Yb Y) in *.
  assert (Hm : (pairs (fun y_p y => negb (Qeq_bool y_p y)) l
                <= List.length Yb)%nat).
  { etransitivity; [apply pairs_le_length|].
    unfold l. rewrite length_combine. apply Nat.le_min_l. }
  assert (Hpos : (0 < List.length Yb)%nat)
    by (destruct Yb; [contradiction|simpl; lia]).
  pose proof (pairs_and_le (fun _ y => Qeq_bool y 1)
                (fun y_p _ => Qeq_bool y_p 1) l) as HTP.
  pose proof (pairs_and_le (fun _ y => Qeq_bool y 0)
                (fun y_p _ => Qeq_bool y_p 0) l) as HTN.
  cbn beta in HTP, HTN.
  rewrite Hr.
  cbn [ret_accuracy ret_TP_rate ret_TN_rate ret_precision n_errors].
  unfold fraction.
  destruct (ratio_bounds _ _ Hm Hpos) as [Ha0 Ha1].
  split; [split; lra|].
  unfold TP_rate_of, TN_rate_of, precision_of. cbn [P N TP TN].
  rewrite !qnat_eq_bool_0.
  split; [|split].
  - destruct (Nat.eqb_spec (pairs (fun _ y => Qeq_bool y 1) l) 0);
      [split; lra|]. apply ratio_bounds; lia.
  - destruct (Nat.eqb_spec (pairs (fun _ y => Qeq_bool y 0) l) 0);
      [split; lra|]. apply ratio_bounds; lia.
  - set (tp := pairs (fun y_p y => Qeq_bool y 1 && Qeq_bool y_p 1) l) in *.
    set (n := pairs (fun _ y => Qeq_bool y 0) l) in *.
    set (tn := pairs (fun y_p y => Qeq_bool y 0 && Qeq_bool y_p 0) l) in *.
    destruct (Qeq_bool (qnat tp + qnat n - qnat tn) 0) eqn:Hd;
      cbn [negb]; [split; lra|].
    pose proof (qnat_nonneg tp) as H0.
    pose proof (qnat_le _ _ HTN) as H1.
    assert (H2 : 0 <= qnat n - qnat tn) by lra.
    assert (Hnz : ~ qnat tp + (qnat n - qnat tn) == 0).
    { intros Hz. apply not_true_iff_false in Hd. apply Hd.
      apply Qeq_bool_iff. rewrite <- Hz. ring. }
    destruct (fraction_bounds _ _ H0 H2 Hnz) as [Hf0 Hf1].
    assert (Hden : qnat tp + qnat n - qnat tn == qnat tp + (qnat n - qnat tn))
      by ring.
    rewrite Hden. split; assumption.
Qed.

Lemma split_run_fractions X Y test_size thr (s s' : @state Mdl W) r :
  split_run X Y test_size thr s = (Ok r, s') ->
  fraction (run_acc r) /\ fraction (run_TP_rate r) /\ fraction (run_TN_rate r).
Proof.
  unfold split_run, bind, ret, call_set_to_default, call_train_test_split,
    call_time, call_train.
  cbn [dipnn world stdout].
  repeat match goal with
         | |- context [train_test_split ?a ?b ?c ?d] =>
             destruct (train_test_split a b c d) as [[[[? ?] ?] ?] ?]
         | |- context [time_time ?w] => destruct (time_time w) as [? ?]
         | _ => progress cbn [dipnn world stdout]
         end.
  match goal with
  | |- context [test ?a ?b ?c ?d] =>
      destruct (test a b c d) as [[t|?] ?] eqn:Ht; [|discriminate]
  end.
  destruct (test_returns_fractions _ _ _ _ _ _ Ht) as (Ha & Htp & Htn & _).
  destruct t as [[[[[? ?] ?] ?] ?] ?].
  cbn [dipnn world stdout].
  repeat match goal with
         | |- context [time_time ?w] => destruct (time_time w) as [? ?]
         end.
  intros [= <- _]. cbn [run_acc run_TP_rate run_TN_rate]. auto.
Qed.

Lemma fold_run_fractions X Y thr fold (s s' : @state Mdl W) r :
  fold_run X Y thr fold s = (Ok r, s') ->
  fraction (run_acc r) /\ fraction (run_TP_rate r) /\ fraction (run_TN_rate r).
Proof.
  unfold fold_run, bind, ret, lift, call_set_to_default, call_time, call_train.
  cbn [dipnn world stdout].
  repeat match goal with
         | |- context [take ?a ?b] =>
             destruct (take a b) as [?|?]; [|discriminate]
         | |- context [time_time ?w] => destruct (time_time w) as [? ?]
         | _ => progress cbn [dipnn world stdout]
         end.
  match goal with
  | |- context [test ?a ?b ?c ?d] =>
      destruct (test a b c d) as [[t|?] ?] eqn:Ht; [|discriminate]
  end.
  destruct (test_returns_fractions _ _ _ _ _ _ Ht) as (Ha & Htp & Htn & _).
  destruct t as [[[[[? ?] ?] ?] ?] ?].
  cbn [dipnn world stdout].
  repeat match goal with
         | |- context [time_time ?w] => destruct (time_time w) as [? ?]
         end.
  intros [= <- _]. cbn [run_acc run_TP_rate run_TN_rate]. auto.
Qed.

Lemma bind_same_outcome {A B} (m : @M Mdl W A) (k : A -> @M Mdl W B) s s' :
  m s = m s' -> bind m k s = bind m k s'.
Proof. unfold bind. intros ->. reflexivity. Qed.

Lemma bind_lift_ok {A B} (a : A) (k : A -> @M Mdl W B) s :
  bind (lift (Ok a)) k s = k a s.
Proof. reflexivity. Qed.

(** Whenever [evaluate_multiple_times] returns, at least one run was
    asked for and every run returned. *)
Lemma evaluate_multiple_times_ok_inv X Y no_runs test_size
  coefficients_threshold coeff_precision thr (s s2 : @state Mdl W) r :
  evaluate_multiple_times X Y no_runs test_size coefficients_threshold
    coeff_precision thr s = (Ok r, s2) ->
  (1 <= no_runs)%Z
  /\ exists rs s1,
       collect (range no_runs) (fun _ => split_run X Y test_size thr) s
       = (Ok rs, s1).
Proof.
  intros Hev. split.
  - destruct (Z_lt_le_dec no_runs 1) as [Hlt|Hge]; [exfalso|exact Hge].
    revert Hev. unfold evaluate_multiple_times, range.
    replace (Z.to_nat no_runs) with 0%nat by lia.
    cbn [seq map for_each]. unfold bind at 1. unfold ret at 1.
    unfold bind, pydiv, print, ret, read_local, raise,
      call_get_the_model_representation.
    cbn [locals0 sum_acc sum_TP_rate sum_TN_rate sum_roc_auc accuracy_list
           roc_auc_list training_time test_time precision recall].
    destruct (Qeq_bool (inject_Z no_runs) 0); discriminate.
  - revert Hev. unfold evaluate_multiple_times. unfold bind at 1.
    rewrite (for_each_collect _ (fun _ => split_run X Y test_size thr) false)
      by (intros; apply multiple_times_body_run).
    destruct (collect _ _ s) as [[rs|e] s1]; [eauto|discriminate].
Qed.

(** Whenever [evaluate_k_fold] returns over as many folds as asked for,
    at least one fold was asked for and every run returned. *)
Lemma evaluate_k_fold_ok_inv X Y n_folds coefficients_threshold
  coeff_precision thr seed folds (s s2 : @state Mdl W) r :
  KFold_split n_folds seed X = Ok folds ->
  List.length folds = Z.to_nat n_folds ->
  evaluate_k_fold X Y n_folds coefficients_threshold coeff_precision thr seed s
  = (Ok r, s2) ->
  (1 <= n_folds)%Z
  /\ exists rs s1, collect folds (fold_run X Y thr) s = (Ok rs, s1).
Proof.
  intros Hk Hlen Hev. split.
  - destruct (Z_lt_le_dec n_folds 1) as [Hlt|Hge]; [exfalso|exact Hge].
    assert (Hnil : folds = [])
      by (destruct folds; [reflexivity|cbn [List.length] in Hlen; lia]).
    subst folds. revert Hev. unfold evaluate_k_fold.
    unfold bind at 1. unfold lift at 1. rewrite Hk.
    cbn [for_each]. unfold bind at 1. unfold ret at 1.
    unfold bind, pydiv, print, ret, read_local, raise,
      call_get_the_model_representation.
    cbn [locals0 sum_acc sum_TP_rate sum_TN_rate sum_roc_auc accuracy_list
           roc_auc_list training_time test_time precision recall].
    destruct (Qeq_bool (inject_Z n_folds) 0); discriminate.
  - revert Hev. unfold evaluate_k_fold.
    unfold bind at 1. unfold lift at 1. rewrite Hk. unfold bind at 1.
    rewrite (for_each_collect _ (fold_run X Y thr) true)
      by (intros; apply k_fold_body_run).
    destruct (collect _ _ s) as [[rs|e] s1]; [eauto|discriminate].
Qed.

End DriverEdges.

Section DriverProperties.

Context {Mdl W : Type} {Cls : Classifier Mdl} {Env : Environment W}.

(** X7.  A run that raises ends the evaluation: the driver raises the
    same exception in the state the run left, the console has gained
    advisories of [test] only and no line of the report; an exception
    of the fold generator escapes [evaluate_k_fold] before anything is
    done. *)
Theorem drivers_propagate_failure X Y thr (s s1 : @state Mdl W) e :
  (forall no_runs test_size coefficients_threshold coeff_precision,
     collect (range no_runs) (fun _ => split_run X Y test_size thr) s
     = (Raise e, s1) ->
     evaluate_multiple_times X Y no_runs test_size coefficients_threshold
       coeff_precision thr s = (Raise e, s1)
     /\ exists out, stdout s1 = stdout s ++ out /\ Forall advisory out)
  /\ (forall n_folds coefficients_threshold coeff_precision seed,
        KFold_split n_folds seed X = Raise e ->
        evaluate_k_fold X Y n_folds coefficients_threshold coeff_precision
          thr seed s = (Raise e, s))
  /\ (forall n_folds coefficients_threshold coeff_precision seed folds,
        KFold_split n_folds seed X = Ok folds ->
        collect folds (fold_run X Y thr) s = (Raise e, s1) ->
        evaluate_k_fold X Y n_folds coefficients_threshold coeff_precision
          thr seed s = (Raise e, s1)
        /\ exists out, stdout s1 = stdout s ++ out /\ Forall advisory out).
Proof.
  split; [|split].
  - intros no_runs test_size ct cp Hc. split.
    + unfold evaluate_multiple_times. unfold bind at 1.
      rewrite (for_each_collect _ (fun _ => split_run X Y test_size thr) false)
        by (intros; apply multiple_times_body_run).
      rewrite Hc. reflexivity.
    + destruct (quiet_collect (fun _ : Z => split_run X Y test_size thr)
                  (range no_runs)
                  (fun _ => quiet_split_run X Y test_size thr) s)
        as (out & Hout & Hadv).
      rewrite Hc in Hout. exists out. split; assumption.
  - intros n_folds ct cp seed Hk. unfold evaluate_k_fold.
    unfold bind at 1. unfold lift at 1. rewrite Hk. reflexivity.
  - intros n_folds ct cp seed folds Hk Hc. split.
    + unfold evaluate_k_fold. unfold bind at 1. unfold lift at 1. rewrite Hk.
      unfold bind at 1.
      rewrite (for_each_collect _ (fold_run X Y thr) true)
        by (intros; apply k_fold_body_run).
      rewrite Hc. reflexivity.
    + destruct (quiet_collect (fold_run X Y thr) folds
                  (quiet_fold_run X Y thr) s) as (out & Hout & Hadv).
      rewrite Hc in Hout. exists out. split; assumption.
Qed.

(** X8.  With a negative [no_runs] the loop of [evaluate_multiple_times]
    does not run and the divisions go through: the driver prints the
    representation of the model as it found it and four zero averages,
    then raises [UnboundLocalError] at the unbound [precision]. *)
Theorem evaluate_multiple_times_negative_runs X Y no_runs test_size
  coefficients_threshold coeff_precision thr (s : @state Mdl W) :
  (no_runs < 0)%Z ->
  evaluate_multiple_times X Y no_runs test_size coefficients_threshold
    coeff_precision thr s
  = (Raise UnboundLocalError,
     printing s
       (early_report
          (get_the_model_representation (dipnn s) coefficients_threshold
             coeff_precision)
          (inject_Z no_runs)))
  /\ 0 / inject_Z no_runs == 0.
Proof.
  intros Hneg. split; [|unfold Qdiv; ring].
  unfold evaluate_multiple_times, range.
  replace (Z.to_nat no_runs) with 0%nat by lia.
  cbn [seq map for_each]. unfold bind at 1. unfold ret at 1.
  unfold bind, pydiv, print, ret, read_local, raise,
    call_get_the_model_representation.
  cbn [locals0 sum_acc sum_TP_rate sum_TN_rate sum_roc_auc accuracy_list
         roc_auc_list training_time test_time precision recall].
  rewrite (inject_Z_nonzero no_runs) by lia.
  cbn [dipnn world stdout]. unfold printing, early_report.
  rewrite <- !app_assoc. reflexivity.
Qed.

(** X9.  When the reset of the model forgets its state, a driver that
    runs at least once behaves the same whatever state the model is in
    on entry: same result, same final model, world and console. *)
Theorem drivers_forget_initial_model X Y thr (m m' : Mdl) (w : W)
  (out : list line) :
  (forall a b : Mdl, set_to_default a = set_to_default b) ->
  (forall no_runs test_size coefficients_threshold coeff_precision,
     (1 <= no_runs)%Z ->
     evaluate_multiple_times X Y no_runs test_size coefficients_threshold
       coeff_precision thr (mkState m w out)
     = evaluate_multiple_times X Y no_runs test_size coefficients_threshold
         coeff_precision thr (mkState m' w out))
  /\ (forall n_folds coefficients_threshold coeff_precision seed fold folds,
        KFold_split n_folds seed X = Ok (fold :: folds) ->
        evaluate_k_fold X Y n_folds coefficients_threshold coeff_precision
          thr seed (mkState m w out)
        = evaluate_k_fold X Y n_folds coefficients_threshold coeff_precision
            thr seed (mkState m' w out)).
Proof.
  intros Hreset. split.
  - intros no_runs test_size ct cp Hn. unfold evaluate_multiple_times.
    apply bind_same_outcome. unfold range.
    destruct (Z.to_nat no_runs) as [|k] eqn:Hk; [lia|].
    cbn [seq map for_each]. apply bind_same_outcome.
    unfold multiple_times_body. apply bind_same_outcome.
    unfold call_set_to_default. cbn [dipnn world stdout].
    rewrite (Hreset m m'). reflexivity.
  - intros n_folds ct cp seed fold folds Hk. unfold evaluate_k_fold.
    rewrite Hk, !bind_lift_ok.
    apply bind_same_outcome. cbn [for_each]. apply bind_same_outcome.
    unfold k_fold_body. destruct fold as [train_index test_index].
    apply bind_same_outcome.
    unfold call_set_to_default. cbn [dipnn world stdout].
    rewrite (Hreset m m'). reflexivity.
Qed.

Lemma aggregate_fractions (n : Z) (rs : list run) :
  List.length rs = Z.to_nat n -> (1 <= n)%Z ->
  Forall (fun r => fraction (run_acc r) /\ fraction (run_TP_rate r)
                   /\ fraction (run_TN_rate r)) rs ->
  let r := aggregate (inject_Z n) rs in
  fraction (avg_accuracy r) /\ fraction (avg_TP_rate r)
  /\ fraction (avg_TN_rate r) /\ 0 <= var_training r /\ 0 <= var_test r.
Proof.
  intros Hlen Hn Hall r.
  destruct (aggregate_summarises n rs Hlen Hn)
    as (Hacc & _ & Hvtr & _ & Hvte & Htp & Htn & _).
  fold r in Hacc, Hvtr, Hvte, Htp, Htn.
  assert (Hne : forall g : run -> Q, map g rs <> []).
  { intros g Hnil. apply (f_equal (@List.length Q)) in Hnil.
    rewrite length_map, Hlen in Hnil. cbn [List.length] in Hnil. lia. }
  assert (Hmean : forall g : run -> Q,
             Forall (fun x => fraction (g x)) rs -> fraction (mean (map g rs))).
  { intros g Hg. apply mean_fraction; [apply Hne|].
    apply Forall_map. exact Hg. }
  unfold fraction in *.
  rewrite Hacc, Htp, Htn, Hvtr, Hvte.
  split; [apply (Hmean run_acc);
          exact (Forall_impl _ (fun a Ha => proj1 Ha) Hall)|].
  split; [apply (Hmean run_TP_rate);
          exact (Forall_impl _ (fun a Ha => proj1 (proj2 Ha)) Hall)|].
  split; [apply (Hmean run_TN_rate);
          exact (Forall_impl _ (fun a Ha => proj2 (proj2 Ha)) Hall)|].
  split; apply population_variance_nonneg.
Qed.

(** X10.  Whenever a driver returns, its average accuracy, average
    TP-rate and average TN-rate lie between 0 and 1 and the variances of
    the training and test durations are not negative ([evaluate_k_fold]:
    when the generator yields as many folds as asked for). *)
Theorem drivers_return_fractions X Y thr (s s2 : @state Mdl W) r :
  (forall no_runs test_size coefficients_threshold coeff_precision,
     evaluate_multiple_times X Y no_runs test_size coefficients_threshold
       coeff_precision thr s = (Ok r, s2) ->
     fraction (avg_accuracy r) /\ fraction (avg_TP_rate r)
     /\ fraction (avg_TN_rate r) /\ 0 <= var_training r /\ 0 <= var_test r)
  /\ (forall n_folds coefficients_threshold coeff_precision seed folds,
        KFold_split n_folds seed X = Ok folds ->
        List.length folds = Z.to_nat n_folds ->
        evaluate_k_fold X Y n_folds coefficients_threshold coeff_precision
          thr seed s = (Ok r, s2) ->
        fraction (avg_accuracy r) /\ fraction (avg_TP_rate r)
        /\ fraction (avg_TN_rate r) /\ 0 <= var_training r
        /\ 0 <= var_test r).
Proof.
  split.
  - intros no_runs test_size ct cp Hev.
    destruct (evaluate_multiple_times_ok_inv _ _ _ _ _ _ _ _ _ _ Hev)
      as (Hn & rs & s1 & Hc).
    destruct (evaluate_multiple_times_returns X Y no_runs test_size ct cp thr
                s s1 rs Hc Hn) as (rl & _ & Hret).
    rewrite Hret in Hev. injection Hev as <- _.
    apply aggregate_fractions; [|exact Hn|].
    + rewrite (collect_length _ _ _ _ _ Hc). apply range_length.
    + apply (collect_ok_forall (fun _ : Z => split_run X Y test_size thr) _
               (fun _ s r s' => split_run_fractions X Y test_size thr s s' r)
               _ _ _ _ Hc).
  - intros n_folds ct cp seed folds Hk Hlen Hev.
    destruct (evaluate_k_fold_ok_inv _ _ _ _ _ _ _ _ _ _ _ Hk Hlen Hev)
      as (Hn & rs & s1 & Hc).
    destruct (evaluate_k_fold_returns X Y n_folds ct cp thr seed folds
                s s1 rs Hk Hlen Hc Hn) as (rl & _ & Hret).
    rewrite Hret in Hev. injection Hev as <- _.
    apply aggregate_fractions; [|exact Hn|].
    + rewrite (collect_length _ _ _ _ _ Hc). exact Hlen.
    + apply (collect_ok_forall (fold_run X Y thr) _
               (fun fold s r s' => fold_run_fractions X Y thr fold s s' r)
               _ _ _ _ Hc).
Qed.

(** X11.  Whenever a driver returns, what it has added to the console
    is advisories of [test] followed by its report of 13 lines (14 in
    [evaluate_k_fold]), and every number of the returned tuple stands in
    the report under its label. *)
Theorem drivers_print_what_they_return X Y thr (s s2 : @state Mdl W) r :
  (forall no_runs test_size coefficients_threshold coeff_precision,
     evaluate_multiple_times X Y no_runs test_size coefficients_threshold
       coeff_precision thr s = (Ok r, s2) ->
     exists adv rep,
       stdout s2 = stdout s ++ adv ++ rep
       /\ Forall advisory adv /\ List.length rep = 13%nat
       /\ field "Average accuracy: " rep = Some (avg_accuracy r)
       /\ field "Average training time: " rep = Some (avg_training r)
       /\ field "Variance of training time: " rep = Some (var_training r)
       /\ field "Average test time: " rep = Some (avg_test r)
       /\ field "Variance of test time: " rep = Some (var_test r)
       /\ field "Average true positive rate: " rep = Some (avg_TP_rate r)
       /\ field "Average true negative rate: " rep = Some (avg_TN_rate r)
       /\ field "Area Under the Receiver Operating Characteristic Score: " rep
          = Some (avg_auc r))
  /\ (forall n_folds coefficients_threshold coeff_precision seed folds,
        KFold_split n_folds seed X = Ok folds ->
        List.length folds = Z.to_nat n_folds ->
        evaluate_k_fold X Y n_folds coefficients_threshold coeff_precision
          thr seed s = (Ok r, s2) ->
        exists adv rep,
          stdout s2 = stdout s ++ adv ++ rep
          /\ Forall advisory adv /\ List.length rep = 14%nat
          /\ field "Average accuracy: " rep = Some (avg_accuracy r)
          /\ field "Average training time: " rep = Some (avg_training r)
          /\ field "Variance of training time: " rep = Some (var_training r)
          /\ field "Average test time: " rep = Some (avg_test r)
          /\ field "Variance of test time: " rep = Some (var_test r)
          /\ field "Average true positive rate: " rep = Some (avg_TP_rate r)
          /\ field "Average true negative rate: " rep = Some (avg_TN_rate r)
          /\ field
               "Average Area Under the Receiver Operating Characteristic Score: "
               rep = Some (avg_auc r)).
Proof.
  split.
  - intros no_runs test_size ct cp Hev.
    destruct (evaluate_multiple_times_ok_inv _ _ _ _ _ _ _ _ _ _ Hev)
      as (Hn & rs & s1 & Hc).
    destruct (evaluate_multiple_times_returns X Y no_runs test_size ct cp thr
                s s1 rs Hc Hn) as (rl & _ & Hret).
    rewrite Hret in Hev. injection Hev as <- <-.
    destruct (quiet_collect (fun _ : Z => split_run X Y test_size thr)
                (range no_runs)
                (fun _ => quiet_split_run X Y test_size thr) s)
      as (adv & Hout & Hadv).
    rewrite Hc in Hout. cbn [snd] in Hout.
    eexists adv, _. split.
    { unfold printing. cbn [stdout]. rewrite Hout, <- app_assoc. reflexivity. }
    split; [exact Hadv|]. repeat split.
  - intros n_folds ct cp seed folds Hk Hlen Hev.
    destruct (evaluate_k_fold_ok_inv _ _ _ _ _ _ _ _ _ _ _ Hk Hlen Hev)
      as (Hn & rs & s1 & Hc).
    destruct (evaluate_k_fold_returns X Y n_folds ct cp thr seed folds
                s s1 rs Hk Hlen Hc Hn) as (rl & _ & Hret).
    rewrite Hret in Hev. injection Hev as <- <-.
    destruct (quiet_collect (fold_run X Y thr) folds
                (quiet_fold_run X Y thr) s) as (adv & Hout & Hadv).
    rewrite Hc in Hout. cbn [snd] in Hout.
    eexists adv, _. split.
    { unfold printing. cbn [stdout]. rewrite Hout, <- app_assoc. reflexivity. }
    split; [exact Hadv|]. repeat split.
Qed.

End DriverProperties.

Section TestFailure.

Context {Mdl W : Type} {Cls : Classifier Mdl} {Env : Environment W}.

(** X12.  An exception of the AUC routine escapes [test] as it is,
    whatever the predictions and the threshold; by then [test] has
    printed at most its advisories on positives and negatives. *)
Theorem test_propagates_auc_failure (s : @state Mdl W) X Y thr Yb0 Ys e :
  predict (dipnn s) X = (Yb0, Ys) ->
  roc_auc_score (auc_labels Y) Ys = Raise e ->
  fst (test X Y thr s) = Raise e
  /\ exists out,
       stdout (snd (test X Y thr s)) = stdout s ++ out
       /\ Forall (fun l => l = Text "No positive examples were found!"
                           \/ l = Text "No negative examples were found!") out.
Proof.
  intros Hp Hauc. rewrite (test_metrics s X Y thr Yb0 Ys Hp).
  unfold metrics, bind, pydiv, print, lift, ret, raise. rewrite Hauc.
  destruct (Qeq_bool (P _) 0) eqn:HP, (Qeq_bool (N _) 0) eqn:HN;
    rewrite ?HP, ?HN; cbn [fst snd stdout dipnn world];
    (split; [reflexivity|]).
  - exists [Text "No positive examples were found!";
            Text "No negative examples were found!"].
    rewrite <- app_assoc. split; [reflexivity|]. repeat first [apply Forall_nil | apply Forall_cons; [auto|]].
  - exists [Text "No positive examples were found!"].
    split; [reflexivity|]. repeat first [apply Forall_nil | apply Forall_cons; [auto|]].
  - exists [Text "No negative examples were found!"].
    split; [reflexivity|]. repeat first [apply Forall_nil | apply Forall_cons; [auto|]].
  - exists []. rewrite app_nil_r. split; [reflexivity|]. constructor.
Qed.

End TestFailure.

(** ** The claims on the small classifier *)

Import Toy.


Lemma test_accuracy_witness :
  exists r s',
    test X6 Y6 (-1) start = (Ok r, s')
    /\ ret_accuracy r = 1 - qnat 2 / qnat 6
    /\ 0 <= ret_accuracy r /\ ret_accuracy r <= 1.
Proof.
  destruct (@test_accuracy Q nat classifier environment start
      X6 Y6 (-1) Yb6 Ys6
      ltac:(vm_compute; reflexivity)
      ltac:(vm_compute; reflexivity))
    as [Hval Hret].
  assert (Hne : apply_threshold (-1) Yb6 Ys6 <> [])
    by (vm_compute; discriminate).
  destruct (Hret Hne (8#9) ltac:(vm_compute; reflexivity)) as (r & s' & Ht).
  exists r, s'. split; [exact Ht|]. exact (Hval r s' Ht).
Defined.

Lemma test_rates_witness :
  exists r s',
    test X6 Y6 (-1) start = (Ok r, s')
    /\ ret_TP_rate r = qnat 2 / qnat 3
    /\ ret_TN_rate r = qnat 2 / qnat 3
    /\ (0 <= ret_TP_rate r /\ ret_TP_rate r <= 1)
    /\ (0 <= ret_TN_rate r /\ ret_TN_rate r <= 1).
Proof.
  eexists _, _. split; [vm_compute; reflexivity|].
  destruct (@test_rates Q nat classifier environment start _
      X6 Y6 (-1) Yb6 Ys6 _
      ltac:(vm_compute; reflexivity)
      ltac:(vm_compute; reflexivity)
      ltac:(vm_compute; reflexivity))
    as (HTP & _ & HTN & _ & HbP & HbN).
  split; [apply HTP; vm_compute; lia|].
  split; [apply HTN; vm_compute; lia|].
  split; [exact HbP|exact HbN].
Defined.

Lemma test_precision_witness :
  (exists r s',
     test X6 Y6 (-1) start = (Ok r, s')
     /\ ret_precision r == qnat 2 / (qnat 2 + (qnat 3 - qnat 2)))
  /\ (exists r s',
        test X3 Y3 (-1) start = (Ok r, s')
        /\ ret_precision r = 0
        /\ true_positive_count [0; 0; 0] Y3 = 0%nat).
Proof.
  split.
  - eexists _, _. split; [vm_compute; reflexivity|].
    destruct (@test_precision Q nat classifier environment start _
        X6 Y6 (-1) Yb6 Ys6 _
        ltac:(vm_compute; reflexivity)
        ltac:(vm_compute; reflexivity)
                ltac:(vm_compute; reflexivity)) as (Hnz & _).
    apply Hnz. vm_compute. discriminate.
  - eexists _, _. split; [vm_compute; reflexivity|].
    destruct (@test_precision Q nat classifier environment start _ X3 Y3 (-1) [0; 0; 0]
                [2#10; 4#10; 1#10] _
                    ltac:(vm_compute; reflexivity)
                    ltac:(vm_compute; reflexivity)
                    ltac:(vm_compute; reflexivity))
      as (_ & Hz & _ & _ & Hreach).
    split; [apply Hz|apply Hreach]; vm_compute; reflexivity.
Defined.

Lemma test_threshold_override_witness :
  (exists Yb,
     test X6 Y6 (7#10) start
     = metrics Yb [9#10; 2#10; 6#10; 4#10; 8#10; 1#10] Y6 start
     /\ Forall2 (fun b score => (7#10 <= score -> b = 1)
                                /\ (score < 7#10 -> b = 0))
          Yb [9#10; 2#10; 6#10; 4#10; 8#10; 1#10])
  /\ apply_threshold (7#10) [0; 1; 1] [9#10; 6#10; 3#10] = [1; 0; 0].
Proof.
  destruct (@test_threshold_override Q nat classifier environment start
      X6 Y6 (7#10) Yb6 Ys6
      ltac:(vm_compute; reflexivity))
    as (Hover & _ & Hex).
  split; [apply Hover; vm_compute; discriminate|apply Hex].
Defined.

Lemma test_recall_is_TP_rate_witness :
  exists r s', test X6 Y6 (-1) start = (Ok r, s')
               /\ ret_recall r = ret_TP_rate r.
Proof.
  eexists _, _. split; [vm_compute; reflexivity|].
  apply (@test_recall_is_TP_rate Q nat classifier environment start _
      X6 Y6 (-1) _
      ltac:(vm_compute; reflexivity)).
Defined.

Lemma test_auc_labels_witness :
  auc_labels Y6 = Y6
  /\ (exists r s',
        test X6 Y6 (-1) start = (Ok r, s')
        /\ roc_auc_score Y6 [9#10; 2#10; 6#10; 4#10; 8#10; 1#10]
           = Ok (ret_auc r))
  /\ (exists r s',
        test Scenarios.X_soft Scenarios.Y_soft (-1) start = (Ok r, s')
        /\ auc_labels Scenarios.Y_soft = [1; 0]
        /\ roc_auc_score [1; 0] Scenarios.Ys_soft = Ok (ret_auc r)
        /\ roc_auc_score Scenarios.Y_soft Scenarios.Ys_soft
           = Raise ValueError).
Proof.
  assert (Hall : Forall (fun y => y = 0 \/ y = 1) Y6)
    by (repeat constructor; auto).
  split; [|split].
  - destruct (@test_auc_labels Q nat classifier environment start start
                X6 Y6 (-1) Yb6 Ys6 (0, 0, 0, 0, 0, 0)
                ltac:(vm_compute; reflexivity))
      as (_ & _ & _ & _ & _ & Hid).
    exact (proj1 (Hid Hall)).
  - eexists _, _. split; [vm_compute; reflexivity|].
    match goal with
    | |- _ = Ok (ret_auc ?r) =>
        destruct (@test_auc_labels Q nat classifier environment start start
                    X6 Y6 (-1) Yb6 Ys6 r ltac:(vm_compute; reflexivity))
          as (_ & _ & _ & _ & _ & Hid)
    end.
    apply (proj2 (Hid Hall)). vm_compute. reflexivity.
  - eexists _, _. split; [vm_compute; reflexivity|].
    split; [reflexivity|].
    match goal with
    | |- _ = Ok (ret_auc ?r) /\ _ =>
        destruct (@test_auc_labels Q nat classifier environment start
                    (snd (test Scenarios.X_soft Scenarios.Y_soft (-1) start))
                    Scenarios.X_soft Scenarios.Y_soft (-1) [1; 0]
                    Scenarios.Ys_soft r ltac:(vm_compute; reflexivity))
          as (_ & Hhands & _)
    end.
    split; [apply Hhands; vm_compute; reflexivity|vm_compute; reflexivity].
Defined.

Lemma test_empty_prediction_witness :
  fst (test (Cls := mute) (Env := lenient) X6 Y6 (-1) silent)
  = Raise ZeroDivisionError
  /\ fst (test (Cls := mute) (Env := environment) X6 Y6 (-1) silent)
     = Raise ValueError.
Proof.
  split.
  - destruct (@test_empty_prediction unit nat mute lenient silent X6 Y6 (-1)
                [] [] ltac:(vm_compute; reflexivity)) as (Hempty & _).
    exact (Hempty ltac:(vm_compute; reflexivity)).
  - destruct (@test_empty_prediction unit nat mute environment silent X6 Y6
                (-1) [] [] ltac:(vm_compute; reflexivity)) as (Hempty & _).
    exact (Hempty ltac:(vm_compute; reflexivity)).
Defined.



Lemma evaluate_multiple_times_needs_a_run_witness :
  evaluate_multiple_times X6 Y6 0 (1#5) 0 (-1) (-1) start
  = (Raise ZeroDivisionError, start)
  /\ fst (evaluate_multiple_times X6 Y6 (-2) (1#5) 0 (-1) (-1) start)
     = Raise UnboundLocalError
  /\ (1 <= 3)%Z.
Proof.
  destruct (@evaluate_multiple_times_needs_a_run Q nat classifier environment
              X6 Y6 (1#5) 0 (-1)%Z (-1) start) as (Hzero & _ & Hneed).
  split; [exact Hzero|]. split; [vm_compute; reflexivity|].
  eapply (Hneed 3%Z). vm_compute. reflexivity.
Defined.

(** ** The further properties on the small classifier *)

Import Scenarios.

Lemma test_prints_advisories_witness :
  exists r s',
    test X3 Y3 (-1) start = (Ok r, s')
    /\ dipnn s' = dipnn start /\ world s' = world start
    /\ stdout s' = [Text "No true positive examples were found!"].
Proof.
  eexists _, _. split; [vm_compute; reflexivity|].
  exact (@test_prints_advisories Q nat classifier environment start _
           X3 Y3 (-1) [0; 0; 0] [2#10; 4#10; 1#10] _
           ltac:(vm_compute; reflexivity)
           ltac:(vm_compute; reflexivity)
           ltac:(vm_compute; reflexivity)).
Defined.

Lemma test_bounds_any_length_witness :
  exists r s',
    test X6 Y6_short (-1) start = (Ok r, s')
    /\ ret_accuracy r = 1 - qnat 1 / qnat 6
    /\ (0 <= ret_precision r /\ ret_precision r <= 1).
Proof.
  eexists _, _. split; [vm_compute; reflexivity|].
  destruct (@test_bounds_any_length Q nat classifier environment start _
              X6 Y6_short (-1) Yb6 Ys6 _
              ltac:(vm_compute; reflexivity)
              ltac:(vm_compute; reflexivity))
    as (Hacc & _ & _ & _ & Hpr).
  split; [exact Hacc|exact Hpr].
Defined.

Lemma test_accuracy_binary_witness :
  exists r s',
    test X6 Y6 (-1) start = (Ok r, s')
    /\ ret_accuracy r = 1 - qnat (6 - (2 + 2)) / qnat 6.
Proof.
  eexists _, _. split; [vm_compute; reflexivity|].
  assert (HY : binary Y6) by (repeat constructor; auto; right; reflexivity).
  assert (HYb : binary Yb6) by (repeat constructor; auto; right; reflexivity).
  destruct (@test_accuracy_binary Q nat classifier environment start _
              X6 Y6 (-1) Yb6 Ys6 _
              ltac:(vm_compute; reflexivity)
              ltac:(vm_compute; reflexivity)
              HY (or_intror HYb)
              ltac:(vm_compute; reflexivity))
    as (_ & _ & Hacc).
  exact Hacc.
Defined.

Lemma test_auc_ignores_threshold_witness :
  exists r2 s2,
    test X6 Y6 (3#10) start = (Ok r2, s2) /\ ret_auc r2 = 8#9.
Proof.
  destruct (@test_auc_ignores_threshold Q nat classifier environment
              start start X6 Y6 (7#10) (3#10)
              (5#6, 2#3, 3#3, 2#2, 2#3, 8#9)
              ltac:(vm_compute; reflexivity)) as (_ & Hret).
  apply Hret; vm_compute; discriminate.
Defined.

Lemma test_threshold_monotone_witness :
  exists r1 r2 s1 s2,
    test X6 Y6 (3#10) start = (Ok r1, s1)
    /\ test X6 Y6 (7#10) start = (Ok r2, s2)
    /\ ret_TP_rate r2 <= ret_TP_rate r1 /\ ret_TN_rate r1 <= ret_TN_rate r2.
Proof.
  eexists _, _, _, _.
  split; [vm_compute; reflexivity|]. split; [vm_compute; reflexivity|].
  eapply (@test_threshold_monotone Q nat classifier environment
           start _ _ X6 Y6 (3#10) (7#10) _ _);
    [vm_compute; discriminate | vm_compute; discriminate
    | vm_compute; reflexivity | vm_compute; reflexivity].
Defined.

Lemma test_perfect_predictions_witness :
  exists r s',
    test (Cls := echo) X6 Y6 (-1) knowing = (Ok r, s')
    /\ ret_accuracy r == 1 /\ ret_TP_rate r == 1 /\ ret_TN_rate r == 1
    /\ ret_precision r == 1.
Proof.
  eexists _, _. split; [vm_compute; reflexivity|].
  destruct (@test_perfect_predictions vector nat echo environment knowing _
              X6 Y6 (-1) Ys6 _
              ltac:(vm_compute; reflexivity)
              ltac:(vm_compute; reflexivity)
              ltac:(vm_compute; reflexivity))
    as (Hacc & Htp & Htn & Hpr & _).
  split; [exact Hacc|]. split; [exact Htp|]. split; [exact Htn|].
  apply Hpr. vm_compute. lia.
Defined.

Lemma test_propagates_auc_failure_witness :
  fst (test X6 Y6_ones (-1) start) = Raise ValueError.
Proof.
  exact (proj1 (@test_propagates_auc_failure Q nat classifier environment
                  start X6 Y6_ones (-1) Yb6 Ys6 ValueError
                  ltac:(vm_compute; reflexivity)
                  ltac:(vm_compute; reflexivity))).
Defined.

Lemma drivers_propagate_failure_witness :
  evaluate_k_fold X6 Y6 3 0 (-1) (-1) 30 start
  = (Raise ValueError, snd three_folds)
  /\ stdout (snd three_folds) = [Text "No negative examples were found!"]
  /\ evaluate_k_fold X6 Y6 1 0 (-1) (-1) 30 start = (Raise ValueError, start).
Proof.
  destruct (@drivers_propagate_failure Q nat classifier environment
              X6 Y6 (-1) start (snd three_folds) ValueError)
    as (_ & Hgen & Hrun).
  split; [|split].
  - apply (Hrun 3%Z 0 (-1)%Z 30%Z
             [([1; 2; 4; 5], [0; 3]); ([0; 2; 3; 5], [1; 4]);
              ([0; 1; 3; 4], [2; 5])]%nat);
      vm_compute; reflexivity.
  - vm_compute. reflexivity.
  - apply Hgen. vm_compute. reflexivity.
Defined.

Lemma evaluate_multiple_times_negative_runs_witness :
  evaluate_multiple_times X6 Y6 (-2) (1#5) 0 (-1) (-1) start
  = (Raise UnboundLocalError,
     printing start (early_report "score >= cut" (inject_Z (-2)))).
Proof.
  exact (proj1 (@evaluate_multiple_times_negative_runs Q nat classifier
                  environment X6 Y6 (-2)%Z (1#5) 0 (-1)%Z (-1) start
                  ltac:(lia))).
Defined.

Lemma drivers_forget_initial_model_witness :
  evaluate_multiple_times X6 Y6 3 (1#5) 0 (-1) (-1) start
  = evaluate_multiple_times X6 Y6 3 (1#5) 0 (-1) (-1) stale
  /\ evaluate_k_fold X6 Y6 2 0 (-1) (-1) 30 start
     = evaluate_k_fold X6 Y6 2 0 (-1) (-1) 30 stale.
Proof.
  destruct (@drivers_forget_initial_model Q nat classifier environment
              X6 Y6 (-1) (1#2) (9#10) 0%nat [] (fun _ _ => eq_refl))
    as (Hm & Hk).
  split.
  - apply (Hm 3%Z). lia.
  - apply (Hk 2%Z 0 (-1)%Z 30%Z ([1; 3; 5], [0; 2; 4])%nat
             [([0; 2; 4], [1; 3; 5])%nat]).
    vm_compute. reflexivity.
Defined.

Lemma drivers_return_fractions_witness :
  exists r s2,
    evaluate_k_fold X6 Y6 2 0 (-1) (-1) 30 start = (Ok r, s2)
    /\ fraction (avg_accuracy r) /\ fraction (avg_TP_rate r)
    /\ fraction (avg_TN_rate r) /\ 0 <= var_training r /\ 0 <= var_test r.
Proof.
  eexists _, _. split; [vm_compute; reflexivity|].
  eapply (proj2 (@drivers_return_fractions Q nat classifier environment
                   X6 Y6 (-1) start _ _) 2%Z 0 (-1)%Z 30%Z);
    vm_compute; reflexivity.
Defined.

Lemma drivers_print_what_they_return_witness :
  exists adv rep,
    stdout (snd (evaluate_multiple_times X6 Y6 3 (1#5) 0 (-1) (-1) start))
    = stdout start ++ adv ++ rep
    /\ List.length rep = 13%nat
    /\ field "Average accuracy: " rep = Some (81#81)
    /\ field "Area Under the Receiver Operating Characteristic Score: " rep
       = Some (3#3).
Proof.
  assert (Hev : evaluate_multiple_times X6 Y6 3 (1#5) 0 (-1) (-1) start
                = (Ok (81 # 81, 39 # 3, 145800 # 2187, 51 # 3,
                       145800 # 2187, 6 # 6, 12 # 12, 3 # 3),
                   snd (evaluate_multiple_times X6 Y6 3 (1#5) 0 (-1) (-1)
                          start)))
    by (vm_compute; reflexivity).
  match type of Hev with
  | _ = (Ok ?r, ?s2) =>
      pose proof (@drivers_print_what_they_return Q nat classifier
                    environment X6 Y6 (-1) start s2 r) as H
  end.
  destruct H as [H _]. specialize (H 3%Z (1#5) 0 (-1)%Z Hev).
  destruct H
    as (adv & rep & Hout & _ & Hlen & Hacc & _ & _ & _ & _ & _ & _ & Hauc).
  exists adv, rep.
  exact (conj Hout (conj Hlen (conj Hacc Hauc))).
Defined.
